(** * pygatt: the [BLEDevice] base class ([pygatt/classes.py])

    A shallow embedding of [BLEDevice.get_handle], [BLEDevice.subscribe],
    [BLEDevice.char_write] and [BLEDevice.receive_notification], and the
    properties of the subscription / dispatch path.

    The class is an interface: [discover_characteristics] and
    [char_write_handle] are supplied by a backend subclass (BGAPI or
    gatttool).  They are modelled as the methods of a [Backend] class acting
    on a backend state of their own; callbacks are user code that may raise.
    Every call that leaves the class (a discovery, an attribute write, a
    callback invocation) is appended to a log, so that "how many writes were
    issued" is a statement about the log.

    The methods run under [with self._lock]; the embedding is sequential, where
    acquiring and releasing the lock (also on an exception) has no effect on
    the fields.  Backend methods and callbacks act on the outside state only:
    a callback that called back into [subscribe] or [receive_notification]
    would block on the lock, which is not reentrant.  Logging calls are left
    out. *)

From Stdlib Require Import ZArith Strings.Byte.
From stdpp Require Import gmap strings list fin_maps.

Local Open Scope string_scope.
Local Open Scope list_scope.
Local Open Scope Z_scope.

(** ** Data *)

#[global] Instance byte_eq_dec : EqDecision byte := Byte.byte_eq_dec.

(** Modelled from the spec: the [Characteristic] class lives in the backends
    package; it is identified by a UUID and carries the numeric attribute
    [handle] read by [get_handle]. *)
Record Characteristic := mkCharacteristic {
  uuid_of : string;
  handle : Z
}.

(** A callback is a Python callable, hashed by identity in [set].  Only
    hashable callables (functions, bound methods) are callbacks here: for an
    unhashable one [set.add] raises [TypeError], after the [defaultdict] has
    bound a missing key to an empty set. *)
Definition Callback := positive.

(** Exceptions.  [BLEError] is what [get_handle] raises, as
    [exceptions.BLEError(message)]; anything else a backend or a callback
    raises is an exception of some class with some message. *)
Inductive exn :=
  | BLEError (message : string)
  | OtherError (cls : string) (message : string).

Inductive result (A : Type) :=
  | Ok (a : A)
  | Raise (e : exn).
Arguments Ok {A} a.
Arguments Raise {A} e.

(** The fields set by [__init__] (without the lock). *)
Record BLEDevice := mkBLEDevice {
  _characteristics : gmap string Characteristic;
  _address : string;
  _callbacks : gmap Z (gset Callback);
  _subscribed_handlers : gmap Z (list byte)
}.

Definition __init__ (address : string) : BLEDevice :=
  {| _characteristics := ∅;
     _address := address;
     _callbacks := ∅;
     _subscribed_handlers := ∅ |}.

(** Calls that leave the class. *)
Inductive Event :=
  | EvDiscover
  | EvWrite (h : Z) (value : list byte) (wait_for_response : bool)
  | EvCallback (cb : Callback) (h : Z) (value : list byte).

#[global] Instance Event_eq_dec : EqDecision Event.
Proof. solve_decision. Defined.

(** ** The collaborators *)

(** The backend methods a subclass overrides, over a backend state [World].
    [WriteRet] is whatever [char_write_handle] returns. *)
Class Backend (World WriteRet : Type) := {
  discover_characteristics :
    World → result (gmap string Characteristic) * World;
  char_write_handle :
    Z → list byte → bool → World → result WriteRet * World
}.

(** What calling [callback(handle, value)] does; the returned value is
    discarded by the caller. *)
Class Subscribers (World : Type) := {
  call_callback : Callback → Z → list byte → World → result unit * World
}.

(** Iteration order of a Python [set]: unspecified, but each element once. *)
Class SetOrder := {
  set_iter : gset Callback → list Callback;
  set_iter_perm : ∀ X, set_iter X ≡ₚ elements X
}.

(** ** State and the error-state monad *)

Record Sys (World : Type) := mkSys {
  dev : BLEDevice;
  world : World;
  trace : list Event
}.
Arguments mkSys {World} dev world trace.
Arguments dev {World} s.
Arguments world {World} s.
Arguments trace {World} s.

Definition M (World A : Type) : Type := Sys World → result A * Sys World.

Definition ret {W A} (a : A) : M W A := λ s, (Ok a, s).

Definition raise {W A} (e : exn) : M W A := λ s, (Raise e, s).

Definition bind {W A B} (m : M W A) (k : A → M W B) : M W B :=
  λ s, match m s with
       | (Ok a, s') => k a s'
       | (Raise e, s') => (Raise e, s')
       end.

Notation "'let*' x := m 'in' k" := (bind m (λ x, k))
  (at level 10, x name, m at level 100, k at level 200, only parsing).
Notation "m >> k" := (bind m (λ _, k))
  (at level 100, k at level 200, right associativity, only parsing).

Definition gets {W A} (f : BLEDevice → A) : M W A := λ s, (Ok (f (dev s)), s).

Definition modify {W} (f : BLEDevice → BLEDevice) : M W unit :=
  λ s, (Ok tt, mkSys (f (dev s)) (world s) (trace s)).

(** Run an outside call [c] on the backend state, logging [ev] first. *)
Definition extern {W A} (ev : Event) (c : W → result A * W) : M W A :=
  λ s, let '(r, w') := c (world s) in
       (r, mkSys (dev s) w' (trace s ++ [ev])).

Fixpoint for_each {W A} (l : list A) (body : A → M W unit) : M W unit :=
  match l with
  | [] => ret tt
  | x :: l' => body x >> for_each l' body
  end.

(** ** The methods *)

Section Methods.
Context {World WriteRet : Type}.
Context `{!Backend World WriteRet, !Subscribers World, !SetOrder}.

Local Abbreviation M := (M World).

Definition set_characteristics (tbl : gmap string Characteristic)
    (d : BLEDevice) : BLEDevice :=
  {| _characteristics := tbl;
     _address := _address d;
     _callbacks := _callbacks d;
     _subscribed_handlers := _subscribed_handlers d |}.

(** [self._callbacks[value_handle].add(callback)] on a [defaultdict(set)]:
    a missing key is first bound to the empty set. *)
Definition add_callback (value_handle : Z) (callback : Callback)
    (d : BLEDevice) : BLEDevice :=
  {| _characteristics := _characteristics d;
     _address := _address d;
     _callbacks :=
       <[value_handle :=
           default ∅ (_callbacks d !! value_handle) ∪ {[callback]}]>
         (_callbacks d);
     _subscribed_handlers := _subscribed_handlers d |}.

Definition set_subscribed (value_handle : Z) (properties : list byte)
    (d : BLEDevice) : BLEDevice :=
  {| _characteristics := _characteristics d;
     _address := _address d;
     _callbacks := _callbacks d;
     _subscribed_handlers :=
       <[value_handle := properties]> (_subscribed_handlers d) |}.

Definition get_handle (uuid : string) : M Z :=
  let* chars := gets _characteristics in
  (if bool_decide (chars !! uuid = None) then
     let* tbl := extern EvDiscover discover_characteristics in
     modify (set_characteristics tbl)
   else ret tt) >>
  let* chars := gets _characteristics in
  match chars !! uuid with
  | None => raise (BLEError ("No characteristic found matching " +:+ uuid))
  | Some characteristic => ret (handle characteristic)
  end.

(** The device's own [char_write_handle]: the backend's, logged. *)
Definition dev_char_write_handle (h : Z) (value : list byte)
    (wait_for_response : bool) : M WriteRet :=
  extern (EvWrite h value wait_for_response)
         (char_write_handle h value wait_for_response).

Definition char_write (uuid : string) (value : list byte)
    (wait_for_response : bool) : M WriteRet :=
  let* h := get_handle uuid in
  dev_char_write_handle h value wait_for_response.

(** The bytearray [properties] built by [subscribe]. *)
Definition properties_of (indication : bool) : list byte :=
  [if indication then x02 else x01; x00].

Definition subscribe (uuid : string) (callback : option Callback)
    (indication : bool) : M unit :=
  let* value_handle := get_handle uuid in
  let characteristic_config_handle := value_handle + 1 in
  let properties := properties_of indication in
  (match callback with
   | Some cb => modify (add_callback value_handle cb)
   | None => ret tt
   end) >>
  let* subscribed := gets _subscribed_handlers in
  if bool_decide (subscribed !! value_handle ≠ Some properties) then
    dev_char_write_handle characteristic_config_handle properties false >>
    modify (set_subscribed value_handle properties)
  else ret tt.

Definition receive_notification (h : Z) (value : list byte) : M unit :=
  let* callbacks := gets _callbacks in
  match callbacks !! h with
  | Some cbs =>
      for_each (set_iter cbs)
        (λ callback, extern (EvCallback callback h value)
                            (call_callback callback h value))
  | None => ret tt
  end.

End Methods.

(** ** Reading the log *)

(** The attribute writes issued, in order. *)
Definition writes (tr : list Event) : list (Z * list byte * bool) :=
  omap (λ ev, match ev with
              | EvWrite h value w => Some (h, value, w)
              | _ => None
              end) tr.

(** The number of discovery calls. *)
Definition discoveries (tr : list Event) : nat :=
  length (filter (λ ev, ev = EvDiscover) tr).

(** The number of times [cb(h, value)] was called. *)
Definition invocations (cb : Callback) (h : Z) (value : list byte)
    (tr : list Event) : nat :=
  length (filter (λ ev, ev = EvCallback cb h value) tr).

(** The events of [tr'] that come after those of [tr]. *)
Definition since (tr tr' : list Event) : list Event := drop (length tr) tr'.

(** The device after the optional [add] of [subscribe]. *)
Definition with_callback (h : Z) (callback : option Callback)
    (d : BLEDevice) : BLEDevice :=
  match callback with
  | Some cb => add_callback h cb d
  | None => d
  end.

(** The callbacks registered for a handle (none when the key is absent). *)
Definition callbacks_at (d : BLEDevice) (h : Z) : gset Callback :=
  default ∅ (_callbacks d !! h).

(** ** A concrete backend, for running the methods *)

Module Scenario.

(** A backend whose discovery returns a fixed table and whose writes fail
    (as when the connection is lost) while [link_down] is set; [written]
    counts the writes that went through. *)
Record World := mkWorld {
  table : gmap string Characteristic;
  link_down : bool;
  written : nat
}.

#[global] Instance scenario_backend : Backend World unit := {
  discover_characteristics w := (Ok (table w), w);
  char_write_handle h value wait_for_response w :=
    if link_down w
    then (Raise (OtherError "NotConnectedError" "write failed"), w)
    else (Ok tt, mkWorld (table w) (link_down w) (S (written w)))
}.

(** Callbacks 1..9 return; any other raises. *)
#[global] Instance scenario_subscribers : Subscribers World := {
  call_callback cb h value w :=
    if bool_decide (cb < 10)%positive
    then (Ok tt, w)
    else (Raise (OtherError "ValueError" "bad payload"), w)
}.

#[global] Instance scenario_order : SetOrder := {
  set_iter := elements;
  set_iter_perm X := reflexivity (elements X)
}.

Definition uuid : string := "a1e8f5b1-696b-4e4c-87c6-69dfe0b0093b".

Definition the_table : gmap string Characteristic :=
  {[ uuid := mkCharacteristic uuid 16 ]}.

Definition start (down : bool) : Sys World :=
  mkSys (__init__ "01:23:45:67:89:ab") (mkWorld the_table down 0) [].

Definition run {A} (m : M World A) (s : Sys World) : Sys World := (m s).2.

(** The new device after the handle lookup, and after a first
    [subscribe] with a callback that returns. *)
Definition resolved : Sys World := run (get_handle uuid) (start false).

Definition subscribed : Sys World :=
  run (subscribe uuid (Some 1%positive) false) (start false).

(** The same with the link down: the lookup works, writes fail. *)
Definition resolved_down : Sys World := run (get_handle uuid) (start true).

(** Two subscribers that raise, registered for notifications. *)
Definition one_raising : Sys World :=
  run (subscribe uuid (Some 11%positive) false) (start false).

Definition two_raising : Sys World :=
  run (subscribe uuid (Some 10%positive) false) one_raising.

(** Two other subscribers that raise, registered for indications. *)
Definition one_faulty : Sys World :=
  run (subscribe uuid (Some 20%positive) true) (start false).

Definition two_faulty : Sys World :=
  run (subscribe uuid (Some 21%positive) true) one_faulty.

End Scenario.

(** ** Sequences of calls *)

(** A call of one of the methods, by a user of the device or, for
    [receive_notification], by the backend. *)
Inductive Call :=
  | call_get_handle (uuid : string)
  | call_char_write (uuid : string) (value : list byte)
      (wait_for_response : bool)
  | call_subscribe (uuid : string) (callback : option Callback)
      (indication : bool)
  | call_receive_notification (h : Z) (value : list byte).

Section Calls.
Context {World WriteRet : Type}.
Context `{!Backend World WriteRet, !Subscribers World, !SetOrder}.

(** The state a call leaves, whether it returns or raises. *)
Definition perform (c : Call) (s : Sys World) : Sys World :=
  match c with
  | call_get_handle uuid => (get_handle uuid s).2
  | call_char_write uuid value wait_for_response =>
      (char_write uuid value wait_for_response s).2
  | call_subscribe uuid callback indication =>
      (subscribe uuid callback indication s).2
  | call_receive_notification h value => (receive_notification h value s).2
  end.

Definition perform_all (cs : list Call) (s : Sys World) : Sys World :=
  foldl (λ s c, perform c s) s cs.

End Calls.

(** A device just built by [BLEDevice(address)], with nothing called yet. *)
Definition new_device {World} (address : string) (w : World) : Sys World :=
  mkSys (__init__ address) w [].

(** Every recorded configuration is one of the two that [subscribe] builds. *)
Definition configs_valid (d : BLEDevice) : Prop :=
  map_Forall (λ _ (v : list byte), v = [x01; x00] ∨ v = [x02; x00])
             (_subscribed_handlers d).

(** Every recorded configuration was written to the attribute after the
    value handle. *)
Definition configs_written {World} (s : Sys World) : Prop :=
  map_Forall (λ h (v : list byte), (h + 1, v, false) ∈ writes (trace s))
             (_subscribed_handlers (dev s)).

(** The callback calls of a log. *)
Definition calls (tr : list Event) : list (Callback * Z * list byte) :=
  omap (λ ev, match ev with
              | EvCallback cb h value => Some (cb, h, value)
              | _ => None
              end) tr.

(** ** The class with nothing overridden *)

Module BaseClass.

(** [BLEDevice] as written: [char_write_handle] raises
    [NotImplementedError], and [discover_characteristics] is not an attribute
    of the class, so calling it raises [AttributeError]. *)
Definition base_backend : Backend unit unit := {|
  discover_characteristics w :=
    (Raise (OtherError "AttributeError"
              "'BLEDevice' object has no attribute 'discover_characteristics'"),
     w);
  char_write_handle h value wait_for_response w :=
    (Raise (OtherError "NotImplementedError" ""), w)
|}.

(** Callbacks that return. *)
Definition base_subscribers : Subscribers unit := {|
  call_callback cb h value w := (Ok tt, w)
|}.

(** A device whose table was filled in by hand. *)
Definition cached : Sys unit :=
  mkSys (set_characteristics Scenario.the_table (__init__ "01:23:45:67:89:ab"))
        tt [].

End BaseClass.

(** ** Two uuids with one handle *)

Module Aliased.

Definition uuid1 : string := "00002a37-0000-1000-8000-00805f9b34fb".

Definition uuid2 : string := "2a37".

Definition the_table : gmap string Characteristic :=
  {[ uuid1 := mkCharacteristic uuid1 32; uuid2 := mkCharacteristic uuid2 32 ]}.

(** A device that has discovered both. *)
Definition cached : Sys Scenario.World :=
  mkSys (set_characteristics the_table (__init__ "01:23:45:67:89:ab"))
        (Scenario.mkWorld the_table false 0) [].

Definition subscribed : Sys Scenario.World :=
  Scenario.run (subscribe uuid1 (Some 1%positive) true) cached.

End Aliased.

(** ** A dispatch that raised *)

(** [new] is the log of a dispatch of [(h, value)] to the callbacks [cbs]
    that ended with the exception [e] and left the outside in state [w']:
    callbacks of [cbs] were called in turn, those before the last one
    returned, the last one had not been called before and raised [e], and
    nothing was called after it. *)
Definition stopped_by_raise {World} `{!Subscribers World}
    (cbs : gset Callback) (h : Z) (value : list byte) (new : list Event)
    (e : exn) (w' : World) : Prop :=
  ∃ (called : list Callback) (k : Callback) (w : World),
    new = ((λ k, EvCallback k h value) <$> called) ++ [EvCallback k h value] ∧
    k ∈ cbs ∧ (k ∉ called) ∧
    (∀ k', k' ∈ called →
           k' ∈ cbs ∧ ∃ w1 w2, call_callback k' h value w1 = (Ok tt, w2)) ∧
    call_callback k h value w = (Raise e, w').

(** ** Properties *)

Example scenario_subscribe_trace :
  trace (Scenario.run (subscribe Scenario.uuid (Some 1%positive) false)
           (Scenario.start false))
  = [EvDiscover; EvWrite 17 [x01; x00] false].
Proof. vm_compute. reflexivity. Qed.

Lemma since_app (tr new : list Event) : since tr (tr ++ new) = new.
Proof. unfold since. by rewrite drop_app_length. Qed.

Lemma since_refl (tr : list Event) : since tr tr = [].
Proof. unfold since. by rewrite drop_all. Qed.

Lemma writes_app (tr1 tr2 : list Event) :
  writes (tr1 ++ tr2) = writes tr1 ++ writes tr2.
Proof. apply omap_app. Qed.

(** Membership in a union of sets by one of its singletons. *)
Ltac in_union :=
  rewrite ?elem_of_union, ?elem_of_singleton; auto.

Ltac unfold_m :=
  unfold bind, gets, modify, extern, ret, raise in *; simpl in *.

Section Properties.
Context {World WriteRet : Type}.
Context `{!Backend World WriteRet, !Subscribers World, !SetOrder}.

Implicit Types (s : Sys World) (uuid : string) (h : Z).

(** *** [get_handle] *)

Lemma get_handle_hit s uuid c :
  _characteristics (dev s) !! uuid = Some c →
  get_handle uuid s = (Ok (handle c), s).
Proof.
  intros Hc. unfold get_handle. unfold_m.
  rewrite Hc. rewrite bool_decide_eq_false_2 by done.
  simpl. rewrite Hc. by destruct s.
Qed.

Lemma get_handle_miss s uuid :
  _characteristics (dev s) !! uuid = None →
  get_handle uuid s =
    match discover_characteristics (world s) with
    | (Ok tbl, w') =>
        let s' := mkSys (set_characteristics tbl (dev s)) w'
                        (trace s ++ [EvDiscover]) in
        match tbl !! uuid with
        | Some c => (Ok (handle c), s')
        | None =>
            (Raise (BLEError ("No characteristic found matching " +:+ uuid)),
             s')
        end
    | (Raise e, w') => (Raise e, mkSys (dev s) w' (trace s ++ [EvDiscover]))
    end.
Proof.
  intros Hc. unfold get_handle. unfold_m.
  rewrite Hc. rewrite bool_decide_eq_true_2 by done.
  destruct (discover_characteristics (world s)) as [[tbl|e] w']; simpl;
    [|done].
  by destruct (tbl !! uuid).
Qed.

(** A successful lookup leaves the uuid in the table, touches neither the
    callbacks nor the recorded configurations, and issues no write. *)
Lemma get_handle_ok s uuid h s0 :
  get_handle uuid s = (Ok h, s0) →
  (∃ c, _characteristics (dev s0) !! uuid = Some c ∧ handle c = h) ∧
  _callbacks (dev s0) = _callbacks (dev s) ∧
  _subscribed_handlers (dev s0) = _subscribed_handlers (dev s) ∧
  _address (dev s0) = _address (dev s) ∧
  (∃ pre, trace s0 = trace s ++ pre ∧ writes pre = []) ∧
  (is_Some (_characteristics (dev s) !! uuid) → s0 = s).
Proof.
  destruct (_characteristics (dev s) !! uuid) as [c|] eqn:Hc.
  - rewrite (get_handle_hit _ _ _ Hc). intros [= <- <-].
    repeat split; eauto. exists []. by rewrite app_nil_r.
  - rewrite (get_handle_miss _ _ Hc).
    destruct (discover_characteristics (world s)) as [[tbl|e] w'];
      [|done].
    simpl. destruct (tbl !! uuid) as [c|] eqn:Ht; [|done].
    intros [= <- <-]. simpl. repeat split; eauto.
    by intros [? ?].
Qed.

(** Looking the uuid up again finds it without a discovery. *)
Lemma get_handle_again s uuid h s0 :
  get_handle uuid s = (Ok h, s0) →
  ∀ s', _characteristics (dev s') = _characteristics (dev s0) →
        get_handle uuid s' = (Ok h, s').
Proof.
  intros Hg s' Hs'. apply get_handle_ok in Hg as ((c & Hc & <-) & _).
  apply get_handle_hit. by rewrite Hs'.
Qed.

(** *** [subscribe], once the handle is resolved *)

Lemma subscribe_raise_lookup s uuid callback indication e s0 :
  get_handle uuid s = (Raise e, s0) →
  subscribe uuid callback indication s = (Raise e, s0).
Proof. intros Hg. unfold subscribe, bind at 1. by rewrite Hg. Qed.

Lemma with_callback_subscribed h callback d :
  _subscribed_handlers (with_callback h callback d) = _subscribed_handlers d.
Proof. by destruct callback. Qed.

Lemma subscribe_skip s uuid callback indication h s0 :
  get_handle uuid s = (Ok h, s0) →
  _subscribed_handlers (dev s0) !! h = Some (properties_of indication) →
  subscribe uuid callback indication s =
    (Ok tt, mkSys (with_callback h callback (dev s0)) (world s0) (trace s0)).
Proof.
  intros Hg Hrec. unfold subscribe, bind at 1. rewrite Hg.
  destruct callback as [cb|]; unfold_m; rewrite Hrec;
    rewrite bool_decide_eq_false_2 by (by intros ?); [done|].
  by destruct s0.
Qed.

Lemma subscribe_write s uuid callback indication h s0 :
  get_handle uuid s = (Ok h, s0) →
  _subscribed_handlers (dev s0) !! h ≠ Some (properties_of indication) →
  subscribe uuid callback indication s =
    let props := properties_of indication in
    let tr := trace s0 ++ [EvWrite (h + 1) props false] in
    let d := with_callback h callback (dev s0) in
    match char_write_handle (h + 1) props false (world s0) with
    | (Ok _, w') => (Ok tt, mkSys (set_subscribed h props d) w' tr)
    | (Raise e, w') => (Raise e, mkSys d w' tr)
    end.
Proof.
  intros Hg Hrec. unfold subscribe, bind at 1. rewrite Hg.
  destruct callback as [cb|]; unfold_m;
    rewrite bool_decide_eq_true_2 by done;
    unfold dev_char_write_handle; unfold_m;
    by destruct (char_write_handle _ _ _ _) as [[?|?] ?].
Qed.

Lemma properties_of_inj i1 i2 : properties_of i1 = properties_of i2 → i1 = i2.
Proof. by destruct i1, i2. Qed.

(** *** Handle lookup *)

(** C3.  When the uuid is not in [_characteristics], [get_handle] calls
    [discover_characteristics] exactly once.  If the discovery returns a
    table, that table replaces [_characteristics] as a whole, and the lookup
    returns the handle found in it or, when the uuid is still absent, raises
    [BLEError] with a message that ends with the uuid.  If the discovery
    raises, the exception is the outcome of the lookup. *)
Theorem get_handle_rediscovers_once s uuid :
  _characteristics (dev s) !! uuid = None →
  let (r, s') := get_handle uuid s in
  since (trace s) (trace s') = [EvDiscover] ∧
  discoveries (since (trace s) (trace s')) = 1%nat ∧
  match discover_characteristics (world s) with
  | (Ok tbl, w') =>
      _characteristics (dev s') = tbl ∧
      match tbl !! uuid with
      | Some c => r = Ok (handle c)
      | None =>
          r = Raise (BLEError ("No characteristic found matching " +:+ uuid))
      end
  | (Raise e, w') =>
      r = Raise e ∧ _characteristics (dev s') = _characteristics (dev s)
  end.
Proof.
  intros Hmiss. rewrite (get_handle_miss _ _ Hmiss).
  destruct (discover_characteristics (world s)) as [[tbl|e] w']; simpl.
  - destruct (tbl !! uuid) as [c|]; simpl; by rewrite since_app.
  - by rewrite since_app.
Qed.

(** *** Writing by uuid *)

(** The lookup itself never writes. *)
Lemma get_handle_no_write s uuid r s0 :
  get_handle uuid s = (r, s0) →
  writes (since (trace s) (trace s0)) = [].
Proof.
  destruct (_characteristics (dev s) !! uuid) as [c|] eqn:Hc.
  - rewrite (get_handle_hit _ _ _ Hc). intros [= <- <-].
    by rewrite since_refl.
  - rewrite (get_handle_miss _ _ Hc).
    destruct (discover_characteristics (world s)) as [[tbl|e] w']; simpl.
    + destruct (tbl !! uuid); intros [= <- <-]; simpl; by rewrite since_app.
    + intros [= <- <-]. simpl. by rewrite since_app.
Qed.

(** C8.  [char_write] resolves the uuid with [get_handle] and returns what
    [char_write_handle] returns for that handle, the value and the flag; an
    exception of the lookup ([BLEError] for an unknown uuid) is the outcome,
    and then nothing is written. *)
Theorem char_write_pass_through s uuid (value : list byte)
    (wait_for_response : bool) :
  char_write uuid value wait_for_response s =
    match get_handle uuid s with
    | (Ok h, s0) => dev_char_write_handle h value wait_for_response s0
    | (Raise e, s0) => (Raise e, s0)
    end ∧
  match get_handle uuid s with
  | (Ok h, s0) =>
      writes (since (trace s)
                (trace (char_write uuid value wait_for_response s).2))
      = [(h, value, wait_for_response)]
  | (Raise e, s0) =>
      writes (since (trace s)
                (trace (char_write uuid value wait_for_response s).2))
      = []
  end.
Proof.
  unfold char_write, bind.
  destruct (get_handle uuid s) as [[h|e] s0] eqn:Hg; (split; [done|]).
  - pose proof (get_handle_ok _ _ _ _ Hg) as (_ & _ & _ & _ & Hpre & _).
    destruct Hpre as (pre & Hpre & Hw).
    unfold dev_char_write_handle, extern.
    destruct (char_write_handle _ _ _ _) as [? ?]. simpl.
    by rewrite Hpre, <- app_assoc, since_app, writes_app, Hw.
  - simpl. by apply (get_handle_no_write _ _ _ _ Hg).
Qed.

(** *** The configuration write of [subscribe] *)

(** C2.  When the uuid resolves to [h] and the configuration recorded for
    [h] is not the requested one, [subscribe] issues exactly one write: the
    two bytes [0x02 0x00] (indication) or [0x01 0x00] (notification), to
    handle [h + 1], with [wait_for_response=False]. *)
Theorem subscribe_config_write s uuid (callback : option Callback)
    (indication : bool) h s0 :
  get_handle uuid s = (Ok h, s0) →
  _subscribed_handlers (dev s) !! h ≠ Some (properties_of indication) →
  let s1 := (subscribe uuid callback indication s).2 in
  since (trace s0) (trace s1) =
    [EvWrite (h + 1) [if indication then x02 else x01; x00] false] ∧
  writes (since (trace s) (trace s1)) =
    [(h + 1, [if indication then x02 else x01; x00], false)].
Proof.
  intros Hg Hrec.
  pose proof (get_handle_ok _ _ _ _ Hg) as (_ & _ & Hsub & _ & Hpre & _).
  destruct Hpre as (pre & Hpre & Hw).
  rewrite <- Hsub in Hrec.
  rewrite (subscribe_write _ _ _ _ _ _ Hg Hrec). simpl.
  destruct (char_write_handle _ _ _ _) as [[?|?] ?]; simpl;
    rewrite since_app; (split; [done|]);
    rewrite Hpre, <- app_assoc, since_app, writes_app, Hw; done.
Qed.

(** C5.  When the configuration write of [subscribe] raises, [subscribe]
    raises that exception and [_subscribed_handlers] is as before the call;
    so the same call made again issues the write again. *)
Theorem subscribe_failed_write_not_recorded s uuid
    (callback : option Callback) (indication : bool) h s0 e w' :
  get_handle uuid s = (Ok h, s0) →
  _subscribed_handlers (dev s) !! h ≠ Some (properties_of indication) →
  char_write_handle (h + 1) (properties_of indication) false (world s0)
    = (Raise e, w') →
  ∃ s1,
    subscribe uuid callback indication s = (Raise e, s1) ∧
    _subscribed_handlers (dev s1) = _subscribed_handlers (dev s) ∧
    ∀ r s2, subscribe uuid callback indication s1 = (r, s2) →
      since (trace s1) (trace s2) =
        [EvWrite (h + 1) (properties_of indication) false].
Proof.
  intros Hg Hrec Hw.
  pose proof (get_handle_ok _ _ _ _ Hg) as (_ & _ & Hsub & _).
  rewrite <- Hsub in Hrec.
  rewrite (subscribe_write _ _ _ _ _ _ Hg Hrec). simpl. rewrite Hw.
  eexists. split; [done|]. simpl.
  rewrite with_callback_subscribed. split; [done|].
  intros r s2.
  set (s1 := mkSys _ _ _).
  assert (get_handle uuid s1 = (Ok h, s1)) as Hg1.
  { apply (get_handle_again _ _ _ _ Hg). by destruct callback. }
  rewrite (subscribe_write _ _ _ _ _ _ Hg1)
    by (subst s1; simpl; by rewrite with_callback_subscribed).
  simpl. clear Hw.
  destruct (char_write_handle _ _ _ w') as [[?|?] ?];
    intros [= <- <-]; simpl;
    by rewrite (since_app (trace s0 ++ _)).
Qed.

(** C9.  [subscribe] adds the callback before it attempts the write: when
    the write raises, the callback is registered for the value handle all the
    same, while [_subscribed_handlers] and [_address] are as before the call
    and [_characteristics] is as the handle lookup left it (as before the
    call when the uuid was already in the table). *)
Theorem subscribe_failed_write_keeps_callback s uuid (cb : Callback)
    (indication : bool) h s0 e w' :
  get_handle uuid s = (Ok h, s0) →
  _subscribed_handlers (dev s) !! h ≠ Some (properties_of indication) →
  char_write_handle (h + 1) (properties_of indication) false (world s0)
    = (Raise e, w') →
  ∃ s1,
    subscribe uuid (Some cb) indication s = (Raise e, s1) ∧
    _callbacks (dev s1) =
      <[h := callbacks_at (dev s) h ∪ {[cb]}]> (_callbacks (dev s)) ∧
    cb ∈ callbacks_at (dev s1) h ∧
    _subscribed_handlers (dev s1) = _subscribed_handlers (dev s) ∧
    _address (dev s1) = _address (dev s) ∧
    _characteristics (dev s1) = _characteristics (dev s0) ∧
    (is_Some (_characteristics (dev s) !! uuid) →
     _characteristics (dev s1) = _characteristics (dev s)).
Proof.
  intros Hg Hrec Hw.
  pose proof (get_handle_ok _ _ _ _ Hg) as (_ & Hcb & Hsub & Haddr & _ & Hsame).
  rewrite <- Hsub in Hrec.
  rewrite (subscribe_write _ _ _ _ _ _ Hg Hrec). simpl. rewrite Hw.
  eexists. split; [done|]. simpl. unfold callbacks_at. simpl.
  rewrite Hcb, lookup_insert_eq. simpl.
  repeat split; try done.
  - in_union.
  - intros Hin. by rewrite (Hsame Hin).
Qed.

(** *** Dispatch with nothing registered *)

Lemma set_iter_empty : set_iter ∅ = [].
Proof.
  apply Permutation_nil_r. rewrite set_iter_perm. by rewrite elements_empty.
Qed.

Lemma receive_notification_empty s h (value : list byte) :
  callbacks_at (dev s) h = ∅ →
  receive_notification h value s = (Ok tt, s).
Proof.
  unfold callbacks_at, receive_notification. unfold_m.
  destruct (_callbacks (dev s) !! h) as [cbs|]; simpl; [|done].
  intros ->. by rewrite set_iter_empty.
Qed.

(** C6.  When no callback is registered for the handle (the key is absent
    from [_callbacks], or bound to the empty set), [receive_notification]
    returns normally and the device, the backend and the log are exactly as
    before. *)
Theorem receive_notification_no_callbacks s h (value : list byte) :
  _callbacks (dev s) !! h = None ∨ _callbacks (dev s) !! h = Some ∅ →
  receive_notification h value s = (Ok tt, s).
Proof.
  intros Hnone. apply receive_notification_empty.
  unfold callbacks_at. by destruct Hnone as [-> | ->].
Qed.

(** C10.  [subscribe] with [callback=None] leaves [_callbacks] as it was (no
    key is created), whatever its outcome; when the uuid resolves to [h] it
    issues the configuration write exactly when the recorded configuration
    differs from the requested one; and if no callback was registered for
    [h], a notification for [h] received afterwards calls nothing and returns
    normally, leaving everything as it was. *)
Theorem subscribe_without_callback s uuid (indication : bool) :
  let (r, s1) := subscribe uuid None indication s in
  _callbacks (dev s1) = _callbacks (dev s) ∧
  ∀ h s0, get_handle uuid s = (Ok h, s0) →
    writes (since (trace s) (trace s1)) =
      (if bool_decide (_subscribed_handlers (dev s) !! h
                       ≠ Some (properties_of indication))
       then [(h + 1, properties_of indication, false)] else []) ∧
    (callbacks_at (dev s) h = ∅ →
     ∀ value, receive_notification h value s1 = (Ok tt, s1)).
Proof.
  destruct (get_handle uuid s) as [[h|e] s0] eqn:Hg.
  - pose proof (get_handle_ok _ _ _ _ Hg)
      as (_ & Hcb & Hsub & _ & (pre & Hpre & Hw) & _).
    destruct (decide (_subscribed_handlers (dev s0) !! h
                      = Some (properties_of indication))) as [Hrec|Hrec].
    + rewrite (subscribe_skip _ _ _ _ _ _ Hg Hrec). simpl.
      split; [done|]. intros ? ? [= <- <-]. split.
      * rewrite Hsub in Hrec.
        rewrite bool_decide_eq_false_2 by (by intros ?).
        by rewrite Hpre, since_app.
      * intros Hempty value. apply receive_notification_empty.
        unfold callbacks_at in *. simpl. by rewrite Hcb.
    + rewrite (subscribe_write _ _ _ _ _ _ Hg Hrec). simpl.
      destruct (char_write_handle _ _ _ _) as [[?|?] w1]; simpl;
        (split; [done|]); intros ? ? [= <- <-]; (split;
          [ rewrite Hsub in Hrec; rewrite bool_decide_eq_true_2 by done;
            by rewrite Hpre, <- app_assoc, since_app, writes_app, Hw
          | intros Hempty value; apply receive_notification_empty;
            unfold callbacks_at in *; simpl; by rewrite Hcb ]).
  - rewrite (subscribe_raise_lookup _ _ _ _ _ _ Hg).
    split; [|done].
    destruct (_characteristics (dev s) !! uuid) as [c|] eqn:Hc.
    + rewrite (get_handle_hit _ _ _ Hc) in Hg. by injection Hg as _ <-.
    + rewrite (get_handle_miss _ _ Hc) in Hg.
      destruct (discover_characteristics (world s)) as [[tbl|?] ?]; simpl in Hg.
      * destruct (tbl !! uuid); by injection Hg as _ <-.
      * by injection Hg as _ <-.
Qed.

(** *** One write per change of configuration *)

(** C1.  Starting where the requested configuration is not yet the one
    recorded for the handle (as on a new device): when [subscribe] succeeds,
    a second [subscribe] with the same uuid and flag succeeds and issues no
    call at all, so the two calls together issue exactly one write; and a
    further [subscribe] for the same uuid with the opposite flag issues
    exactly one more write, to the same handle, whose first byte is the new
    flag ([0x02] for indication, [0x01] for notification). *)
Theorem subscribe_twice_one_write s uuid (cb1 cb2 cb3 : option Callback)
    (indication : bool) h s0 s1 :
  get_handle uuid s = (Ok h, s0) →
  _subscribed_handlers (dev s) !! h ≠ Some (properties_of indication) →
  subscribe uuid cb1 indication s = (Ok tt, s1) →
  ∃ s2,
    subscribe uuid cb2 indication s1 = (Ok tt, s2) ∧
    trace s2 = trace s1 ∧
    writes (since (trace s) (trace s2)) =
      [(h + 1, properties_of indication, false)] ∧
    ∀ r s3, subscribe uuid cb3 (negb indication) s2 = (r, s3) →
      writes (since (trace s2) (trace s3)) =
        [(h + 1, [if negb indication then x02 else x01; x00], false)] ∧
      writes (since (trace s) (trace s3)) =
        [(h + 1, properties_of indication, false);
         (h + 1, properties_of (negb indication), false)].
Proof.
  intros Hg Hrec Hsub1.
  pose proof (get_handle_ok _ _ _ _ Hg)
    as (_ & _ & Hsub & _ & (pre & Hpre & Hw) & _).
  rewrite <- Hsub in Hrec.
  rewrite (subscribe_write _ _ _ _ _ _ Hg Hrec) in Hsub1. simpl in Hsub1.
  destruct (char_write_handle _ _ _ _) as [[a|?] w1]; [|done].
  injection Hsub1 as <-.
  set (s1 := mkSys _ _ _).
  assert (get_handle uuid s1 = (Ok h, s1)) as Hg1.
  { apply (get_handle_again _ _ _ _ Hg). by destruct cb1. }
  assert (_subscribed_handlers (dev s1) !! h = Some (properties_of indication))
    as Hrec1 by (subst s1; simpl; apply lookup_insert_eq).
  rewrite (subscribe_skip _ _ _ _ _ _ Hg1 Hrec1).
  eexists. split; [done|]. simpl. split; [done|].
  assert (writes (since (trace s) (trace s1)) =
            [(h + 1, properties_of indication, false)]) as Hw1.
  { subst s1. simpl.
    by rewrite Hpre, <- app_assoc, since_app, writes_app, Hw. }
  split; [done|].
  intros r s3.
  set (s2 := mkSys _ _ _).
  assert (get_handle uuid s2 = (Ok h, s2)) as Hg2.
  { apply (get_handle_again _ _ _ _ Hg1). by destruct cb2. }
  assert (_subscribed_handlers (dev s2) !! h
          ≠ Some (properties_of (negb indication))) as Hrec2.
  { subst s2 s1. simpl. rewrite with_callback_subscribed. simpl.
    rewrite lookup_insert_eq.
    intros Heq%(inj Some)%properties_of_inj. by destruct indication. }
  rewrite (subscribe_write _ _ _ _ _ _ Hg2 Hrec2). simpl.
  assert (trace s1 = trace s ++ since (trace s) (trace s1)) as Htr.
  { subst s1. simpl. by rewrite Hpre, <- app_assoc, since_app. }
  destruct (char_write_handle _ _ _ _) as [[?|?] ?];
    intros [= <- <-]; simpl; rewrite (since_app (trace s0 ++ _));
    (split; [done|]);
    change (trace s0 ++ _) with (trace s1) at 1;
    by rewrite Htr, <- app_assoc, since_app, writes_app, Hw1.
Qed.

(** *** Dispatch to the registered callbacks *)

Lemma invocations_calls (cb : Callback) h (value : list byte)
    (l : list Callback) :
  NoDup l →
  invocations cb h value ((λ k, EvCallback k h value) <$> l) =
    if bool_decide (cb ∈ l) then 1%nat else 0%nat.
Proof.
  unfold invocations. induction 1 as [|k l Hk Hnd IH]; [done|].
  rewrite fmap_cons. destruct (decide (k = cb)) as [->|Hne].
  - rewrite filter_cons_True by done. simpl. rewrite IH.
    rewrite (bool_decide_eq_false_2 (cb ∈ l)) by done.
    rewrite bool_decide_eq_true_2 by left. done.
  - rewrite filter_cons_False by congruence. rewrite IH.
    assert (cb ∈ k :: l ↔ cb ∈ l) as Hiff
      by (rewrite elem_of_cons; intuition congruence).
    by rewrite (bool_decide_ext _ _ Hiff).
Qed.

Lemma set_iter_NoDup (X : gset Callback) : NoDup (set_iter X).
Proof. rewrite set_iter_perm. apply NoDup_elements. Qed.

Lemma elem_of_set_iter (cb : Callback) (X : gset Callback) :
  cb ∈ set_iter X ↔ cb ∈ X.
Proof. rewrite set_iter_perm. apply elem_of_elements. Qed.

(** The loop of [receive_notification]: the callbacks are called in
    iteration order, up to and including the first that raises. *)
Lemma for_each_callbacks h (value : list byte) (l : list Callback) s r s' :
  for_each l (λ callback, extern (EvCallback callback h value)
                                 (call_callback callback h value)) s
    = (r, s') →
  dev s' = dev s ∧
  ∃ called, called `prefix_of` l ∧
    trace s' = trace s ++ ((λ k, EvCallback k h value) <$> called) ∧
    (r = Ok tt → called = l).
Proof.
  revert s. induction l as [|k l IH]; intros s; simpl.
  - intros [= <- <-]. split; [done|]. exists []. by rewrite app_nil_r.
  - unfold bind at 1, extern at 1.
    destruct (call_callback k h value (world s)) as [[[]|e] w1].
    + intros (Hdev & called & Hpre & Htr & Hok)%IH. simpl in *.
      split; [done|]. exists (k :: called). split; [|split].
      * by apply prefix_cons.
      * by rewrite Htr, <- app_assoc.
      * intros Hr. by rewrite (Hok Hr).
    + intros [= <- <-]. simpl. split; [done|]. exists [k].
      split; [|done]. apply prefix_cons, prefix_nil.
Qed.

Lemma receive_notification_calls s h (value : list byte) r s' :
  receive_notification h value s = (r, s') →
  dev s' = dev s ∧
  ∃ called, called `prefix_of` set_iter (callbacks_at (dev s) h) ∧
    since (trace s) (trace s') = (λ k, EvCallback k h value) <$> called ∧
    (r = Ok tt → called = set_iter (callbacks_at (dev s) h)).
Proof.
  unfold receive_notification, callbacks_at, bind, gets.
  destruct (_callbacks (dev s) !! h) as [cbs|]; simpl.
  - intros (Hdev & called & Hpre & Htr & Hok)%for_each_callbacks.
    split; [done|]. exists called. by rewrite Htr, since_app.
  - intros [= <- <-]. split; [done|]. exists [].
    rewrite since_refl. split; [apply prefix_nil|]. split; [done|].
    by rewrite set_iter_empty.
Qed.

(** Every callback is called at most once; only registered callbacks are
    called; and when the dispatch returns normally every registered callback
    was called exactly once. *)
Lemma receive_notification_counts s h (value : list byte) r s' :
  receive_notification h value s = (r, s') →
  dev s' = dev s ∧
  (∀ k, (invocations k h value (since (trace s) (trace s')) ≤ 1)%nat) ∧
  (∀ k, k ∉ callbacks_at (dev s) h →
        invocations k h value (since (trace s) (trace s')) = 0%nat) ∧
  (r = Ok tt →
   ∀ k, k ∈ callbacks_at (dev s) h →
        invocations k h value (since (trace s) (trace s')) = 1%nat).
Proof.
  intros (Hdev & called & Hpre & -> & Hok)%receive_notification_calls.
  assert (NoDup called) as Hnd.
  { destruct Hpre as [rest Hrest].
    pose proof (set_iter_NoDup (callbacks_at (dev s) h)) as Hall.
    rewrite Hrest in Hall. apply NoDup_app in Hall. by destruct Hall. }
  split; [done|]. split; [|split].
  - intros k. rewrite invocations_calls by done. case_bool_decide; lia.
  - intros k Hk. rewrite invocations_calls by done.
    rewrite bool_decide_eq_false_2; [done|].
    intros Hin. apply Hk, elem_of_set_iter.
    destruct Hpre as [rest ->]. apply elem_of_app. by left.
  - intros Hr k Hk. rewrite invocations_calls by done.
    rewrite (Hok Hr). rewrite bool_decide_eq_true_2; [done|].
    by apply elem_of_set_iter.
Qed.

(** Whatever the outcome of the write: once the handle is resolved,
    [subscribe] leaves the callbacks as its [add] made them, and the uuid in
    the table. *)
Lemma subscribe_outcome s uuid (callback : option Callback)
    (indication : bool) h s0 r s1 :
  get_handle uuid s = (Ok h, s0) →
  subscribe uuid callback indication s = (r, s1) →
  _callbacks (dev s1) = _callbacks (with_callback h callback (dev s)) ∧
  get_handle uuid s1 = (Ok h, s1).
Proof.
  intros Hg Hs.
  pose proof (get_handle_ok _ _ _ _ Hg) as (_ & Hcb & _).
  assert (_callbacks (with_callback h callback (dev s0))
          = _callbacks (with_callback h callback (dev s))) as Hsame.
  { destruct callback; simpl; by rewrite Hcb. }
  assert (∀ d, _characteristics (with_callback h callback d)
               = _characteristics d) as Hchars by (by destruct callback).
  destruct (decide (_subscribed_handlers (dev s0) !! h
                    = Some (properties_of indication))) as [Hrec|Hrec].
  - rewrite (subscribe_skip _ _ _ _ _ _ Hg Hrec) in Hs.
    injection Hs as _ <-. split; [done|].
    apply (get_handle_again _ _ _ _ Hg). apply Hchars.
  - rewrite (subscribe_write _ _ _ _ _ _ Hg Hrec) in Hs. simpl in Hs.
    destruct (char_write_handle _ _ _ _) as [[?|?] ?];
      injection Hs as _ <-; (split; [done|]);
      apply (get_handle_again _ _ _ _ Hg); apply Hchars.
Qed.

Lemma subscribe_ok_resolved s uuid (callback : option Callback)
    (indication : bool) s1 :
  subscribe uuid callback indication s = (Ok tt, s1) →
  ∃ h s0, get_handle uuid s = (Ok h, s0).
Proof.
  destruct (get_handle uuid s) as [[h|e] s0] eqn:Hg; [by eauto|].
  by rewrite (subscribe_raise_lookup _ _ _ _ _ _ Hg).
Qed.

Lemma callbacks_at_add h (cb : Callback) (d : BLEDevice) :
  callbacks_at (add_callback h cb d) h = callbacks_at d h ∪ {[cb]}.
Proof. unfold callbacks_at. simpl. by rewrite lookup_insert_eq. Qed.

(** [set.add] of an element already present. *)
Lemma add_callback_present h (cb : Callback) (d : BLEDevice) :
  cb ∈ callbacks_at d h →
  is_Some (_callbacks d !! h) →
  add_callback h cb d = d.
Proof.
  unfold callbacks_at. intros Hin [cbs Hcbs]. rewrite Hcbs in Hin.
  destruct d as [chars addr cbm sub]. unfold add_callback. simpl in *.
  f_equal. rewrite Hcbs. simpl.
  apply insert_id. rewrite Hcbs. f_equal.
  rewrite (comm_L (∪)). symmetry.
  by apply subseteq_union_1_L, singleton_subseteq_l.
Qed.

(** When every registered callback returns, so does the dispatch. *)
Lemma for_each_returns h (value : list byte) (l : list Callback) s :
  (∀ k w, k ∈ l → (call_callback k h value w).1 = Ok tt) →
  (for_each l (λ callback, extern (EvCallback callback h value)
                                  (call_callback callback h value)) s).1
    = Ok tt.
Proof.
  revert s. induction l as [|k l IH]; intros s Hret; [done|].
  simpl. unfold bind at 1, extern at 1.
  pose proof (Hret k (world s) ltac:(left)) as Hk.
  destruct (call_callback k h value (world s)) as [[[]|e] w1]; [|done].
  apply IH. intros k' w Hk'. apply Hret. by right.
Qed.

Lemma receive_notification_returns s h (value : list byte) :
  (∀ k w, k ∈ callbacks_at (dev s) h →
          (call_callback k h value w).1 = Ok tt) →
  (receive_notification h value s).1 = Ok tt.
Proof.
  unfold receive_notification, callbacks_at, bind, gets.
  destruct (_callbacks (dev s) !! h) as [cbs|]; simpl; [|done].
  intros Hret. apply for_each_returns.
  intros k w Hk. apply Hret. by apply elem_of_set_iter.
Qed.

(** The loop ends in one of two ways: every callback returned, or one
    raised, which ends the loop there with its exception. *)
Lemma for_each_ends h (value : list byte) (l : list Callback) s r s' :
  for_each l (λ callback, extern (EvCallback callback h value)
                                 (call_callback callback h value)) s
    = (r, s') →
  match r with
  | Ok _ => ∀ k, k ∈ l → ∃ w1 w2, call_callback k h value w1 = (Ok tt, w2)
  | Raise e =>
      ∃ called k rest w,
        l = called ++ k :: rest ∧
        trace s' = trace s ++ ((λ k, EvCallback k h value) <$> (called ++ [k])) ∧
        (∀ k', k' ∈ called →
               ∃ w1 w2, call_callback k' h value w1 = (Ok tt, w2)) ∧
        call_callback k h value w = (Raise e, world s')
  end.
Proof.
  revert s. induction l as [|k l IH]; intros s; simpl.
  - intros [= <- <-]. intros k Hk. by apply elem_of_nil in Hk.
  - unfold bind at 1, extern at 1.
    destruct (call_callback k h value (world s)) as [[[]|e'] w1] eqn:Hk.
    + intros Hrest%IH. destruct r as [[]|e].
      * intros k' [->|Hk']%elem_of_cons; [by eauto|by apply Hrest].
      * destruct Hrest as (called & k' & rest & w & -> & Htr & Hret & Hraise).
        simpl in Htr. exists (k :: called), k', rest, w.
        split; [done|]. split; [by rewrite Htr, <- app_assoc|].
        split; [|done].
        intros k'' [->|Hk'']%elem_of_cons; [by eauto|by apply Hret].
    + intros [= <- <-]. exists [], k, l, (world s). simpl.
      split; [done|]. split; [done|]. split; [|done].
      intros k' Hk'. by apply elem_of_nil in Hk'.
Qed.

Lemma receive_notification_ends s h (value : list byte) r s' :
  receive_notification h value s = (r, s') →
  (r = Ok tt →
   ∀ k, k ∈ callbacks_at (dev s) h →
        ∃ w1 w2, call_callback k h value w1 = (Ok tt, w2)) ∧
  (∀ e, r = Raise e →
        stopped_by_raise (callbacks_at (dev s) h) h value
          (since (trace s) (trace s')) e (world s')).
Proof.
  unfold receive_notification, callbacks_at, bind, gets.
  destruct (_callbacks (dev s) !! h) as [cbs|] eqn:Hcbs; simpl.
  - intros Hends%for_each_ends. split.
    + intros ->. intros k Hk. by apply Hends, elem_of_set_iter.
    + intros e ->.
      destruct Hends as (called & k & rest & w & Hl & Htr & Hret & Hraise).
      exists called, k, w. rewrite Htr, since_app, fmap_app. simpl.
      split; [done|].
      pose proof (set_iter_NoDup cbs) as Hnd. rewrite Hl in Hnd.
      apply NoDup_app in Hnd as (_ & Hdisj & _).
      assert (∀ x, x ∈ called ++ k :: rest → x ∈ cbs) as Hin.
      { intros x Hx. apply elem_of_set_iter. by rewrite Hl. }
      split; [apply Hin, elem_of_app; right; by left|].
      split; [intros Hk; apply (Hdisj k Hk); by left|].
      split; [|done]. intros k' Hk'. split; [|by apply Hret].
      apply Hin, elem_of_app. by left.
  - intros [= <- <-]. split; [|done].
    intros _ k Hk. by apply not_elem_of_empty in Hk.
Qed.

(** C4.  [receive_notification] calls the callbacks registered for the
    handle one after another with [(handle, value)], each at most once, and
    stops at the first that raises: its exception is the outcome of the
    dispatch, the callbacks called before it returned, and none is called
    after it.  When every registered callback returns, the dispatch returns;
    and when the dispatch returns, every callback registered at its start
    returned and was called exactly once.  In particular, after
    [subscribe(uuid, cb, False)] succeeds, a dispatch for the handle of [uuid]
    that returns has called [cb(handle, value)] exactly once. *)
Theorem receive_notification_calls_each_once :
  (∀ s h (value : list byte),
     let (r, s') := receive_notification h value s in
     (∀ k, (invocations k h value (since (trace s) (trace s')) ≤ 1)%nat) ∧
     (∃ called, called `prefix_of` set_iter (callbacks_at (dev s) h) ∧
        since (trace s) (trace s') = (λ k, EvCallback k h value) <$> called) ∧
     ((∀ k w, k ∈ callbacks_at (dev s) h →
              (call_callback k h value w).1 = Ok tt) → r = Ok tt) ∧
     (r = Ok tt →
      ∀ k, k ∈ callbacks_at (dev s) h →
           invocations k h value (since (trace s) (trace s')) = 1%nat ∧
           ∃ w1 w2, call_callback k h value w1 = (Ok tt, w2)) ∧
     (∀ e, r = Raise e →
           stopped_by_raise (callbacks_at (dev s) h) h value
             (since (trace s) (trace s')) e (world s'))) ∧
  (∀ s uuid (cb : Callback) s1,
     subscribe uuid (Some cb) false s = (Ok tt, s1) →
     ∃ h, get_handle uuid s1 = (Ok h, s1) ∧
       cb ∈ callbacks_at (dev s1) h ∧
       ∀ (value : list byte) s2,
         receive_notification h value s1 = (Ok tt, s2) →
         invocations cb h value (since (trace s1) (trace s2)) = 1%nat).
Proof.
  split.
  - intros s h value.
    pose proof (receive_notification_returns s h value) as Hret.
    destruct (receive_notification h value s) as [r s'] eqn:Hrn.
    pose proof (receive_notification_counts _ _ _ _ _ Hrn)
      as (_ & Hle & _ & Hone).
    pose proof (receive_notification_calls _ _ _ _ _ Hrn)
      as (_ & called & Hpre & Htr & _).
    pose proof (receive_notification_ends _ _ _ _ _ Hrn) as [Hok Hraise].
    split; [done|]. split; [by eauto|]. split; [done|]. split; [|done].
    intros Hr k Hk. split; [by apply Hone|by apply Hok].
  - intros s uuid cb s1 Hs.
    destruct (subscribe_ok_resolved _ _ _ _ _ Hs) as (h & s0 & Hg).
    destruct (subscribe_outcome _ _ _ _ _ _ _ _ Hg Hs) as [Hcb Hg1].
    exists h. split; [done|].
    assert (cb ∈ callbacks_at (dev s1) h) as Hin.
    { unfold callbacks_at at 1. rewrite Hcb.
      fold (callbacks_at (with_callback h (Some cb) (dev s)) h). simpl.
      rewrite callbacks_at_add. in_union. }
    split; [done|].
    intros value s2 Hrn.
    apply receive_notification_counts in Hrn as (_ & _ & _ & Hone).
    by apply Hone.
Qed.

(** C7.  Adding a callback is idempotent: once the handle of the uuid is
    resolved, a second [subscribe] with the same callback leaves [_callbacks]
    as the first call left it.  When two callbacks are registered for the
    same uuid, both are in the set of its handle, and every later dispatch
    for that handle either returns, and then every registered callback
    returned and each of the two was called exactly once, or raises, and then
    it stopped at the callback that raised: that exception is the outcome and
    nothing is called after it.  The dispatch returns when every registered
    callback returns. *)
Theorem subscribe_callback_idempotent s uuid (cb : Callback)
    (indication : bool) h s0 r1 s1 :
  get_handle uuid s = (Ok h, s0) →
  subscribe uuid (Some cb) indication s = (r1, s1) →
  (∀ r2 s2, subscribe uuid (Some cb) indication s1 = (r2, s2) →
            _callbacks (dev s2) = _callbacks (dev s1)) ∧
  (∀ (cb' : Callback) (indication' : bool) r2 s2,
     subscribe uuid (Some cb') indication' s1 = (r2, s2) →
     cb ∈ callbacks_at (dev s2) h ∧ cb' ∈ callbacks_at (dev s2) h ∧
     ∀ sd (value : list byte) r s3,
       dev sd = dev s2 →
       receive_notification h value sd = (r, s3) →
       dev s3 = dev s2 ∧
       (r = Ok tt →
        invocations cb h value (since (trace sd) (trace s3)) = 1%nat ∧
        invocations cb' h value (since (trace sd) (trace s3)) = 1%nat ∧
        ∀ k, k ∈ callbacks_at (dev s2) h →
             ∃ w1 w2, call_callback k h value w1 = (Ok tt, w2)) ∧
       (∀ e, r = Raise e →
             stopped_by_raise (callbacks_at (dev s2) h) h value
               (since (trace sd) (trace s3)) e (world s3)) ∧
       ((∀ k w, k ∈ callbacks_at (dev s2) h →
                (call_callback k h value w).1 = Ok tt) → r = Ok tt)).
Proof.
  intros Hg Hs.
  destruct (subscribe_outcome _ _ _ _ _ _ _ _ Hg Hs) as [Hcb Hg1].
  assert (callbacks_at (dev s1) h = callbacks_at (dev s) h ∪ {[cb]}) as Hat.
  { unfold callbacks_at at 1. rewrite Hcb. apply callbacks_at_add. }
  split.
  - intros r2 s2 Hs2.
    destruct (subscribe_outcome _ _ _ _ _ _ _ _ Hg1 Hs2) as [Hcb2 _].
    rewrite Hcb2. unfold with_callback.
    rewrite add_callback_present; [done| |].
    + rewrite Hat. in_union.
    + rewrite Hcb. simpl. by rewrite lookup_insert_eq.
  - intros cb' indication' r2 s2 Hs2.
    destruct (subscribe_outcome _ _ _ _ _ _ _ _ Hg1 Hs2) as [Hcb2 _].
    assert (callbacks_at (dev s2) h = callbacks_at (dev s1) h ∪ {[cb']})
      as Hat2.
    { unfold callbacks_at at 1. rewrite Hcb2. apply callbacks_at_add. }
    split; [rewrite Hat2, Hat; in_union|].
    split; [rewrite Hat2; in_union|].
    intros sd value r s3 Hsd Hrn.
    pose proof (receive_notification_returns sd h value) as Hret.
    rewrite Hrn, Hsd in Hret. simpl in Hret.
    pose proof (receive_notification_ends _ _ _ _ _ Hrn) as [Hok Hraise].
    rewrite Hsd in Hok, Hraise.
    apply receive_notification_counts in Hrn as (Hdev & _ & _ & Hone).
    rewrite Hsd in Hone, Hdev. split; [done|].
    split; [|by split].
    intros Hr. split; [|split; [|by apply Hok]];
      apply Hone; try done; rewrite Hat2, ?Hat; in_union.
Qed.

End Properties.

(** ** The properties on a concrete backend *)

(** C3 at the new device: one discovery, the returned table installed, the
    handle [0x10] found. *)
Lemma get_handle_rediscovers_once_witness :
  let (r, s') := get_handle Scenario.uuid (Scenario.start false) in
  since (trace (Scenario.start false)) (trace s') = [EvDiscover] ∧
  discoveries (since (trace (Scenario.start false)) (trace s')) = 1%nat ∧
  _characteristics (dev s') = Scenario.the_table ∧ r = Ok 16.
Proof.
  pose proof (get_handle_rediscovers_once (Scenario.start false) Scenario.uuid
                ltac:(vm_compute; reflexivity)) as Hthm.
  destruct (get_handle Scenario.uuid (Scenario.start false)) as [r s'].
  destruct Hthm as (Htr & Hn & Htbl & Hr).
  repeat split; assumption.
Defined.

(** C2 on the scenario of the spec: the uuid resolves to [0x10], and
    [subscribe(uuid, cb, indication=False)] writes [0x01 0x00] to [0x11]. *)
Lemma subscribe_config_write_witness :
  since (trace Scenario.resolved) (trace Scenario.subscribed) =
    [EvWrite 17 [x01; x00] false] ∧
  writes (since (trace (Scenario.start false)) (trace Scenario.subscribed)) =
    [(17, [x01; x00], false)].
Proof.
  apply (subscribe_config_write (Scenario.start false) Scenario.uuid
           (Some 1%positive) false 16 Scenario.resolved).
  - vm_compute; reflexivity.
  - vm_compute; discriminate.
Defined.

(** C1 on a new device: subscribe, subscribe again, then ask for
    indications. *)
Lemma subscribe_twice_one_write_witness :
  ∃ s2,
    subscribe Scenario.uuid (Some 2%positive) false Scenario.subscribed
      = (Ok tt, s2) ∧
    trace s2 = trace Scenario.subscribed ∧
    writes (since (trace (Scenario.start false)) (trace s2)) =
      [(17, [x01; x00], false)] ∧
    ∀ r s3, subscribe Scenario.uuid None true s2 = (r, s3) →
      writes (since (trace s2) (trace s3)) = [(17, [x02; x00], false)] ∧
      writes (since (trace (Scenario.start false)) (trace s3)) =
        [(17, [x01; x00], false); (17, [x02; x00], false)].
Proof.
  apply (subscribe_twice_one_write (Scenario.start false) Scenario.uuid
           (Some 1%positive) (Some 2%positive) None false 16
           Scenario.resolved Scenario.subscribed).
  - vm_compute; reflexivity.
  - vm_compute; discriminate.
  - vm_compute; reflexivity.
Defined.

(** C5 with the link down: the write raises, nothing is recorded, and the
    retry writes again. *)
Lemma subscribe_failed_write_not_recorded_witness :
  ∃ s1,
    subscribe Scenario.uuid (Some 1%positive) false (Scenario.start true)
      = (Raise (OtherError "NotConnectedError" "write failed"), s1) ∧
    _subscribed_handlers (dev s1) = ∅ ∧
    ∀ r s2, subscribe Scenario.uuid (Some 1%positive) false s1 = (r, s2) →
      since (trace s1) (trace s2) = [EvWrite 17 [x01; x00] false].
Proof.
  apply (subscribe_failed_write_not_recorded (Scenario.start true)
           Scenario.uuid (Some 1%positive) false 16 Scenario.resolved_down
           (OtherError "NotConnectedError" "write failed")
           (world Scenario.resolved_down)).
  - vm_compute; reflexivity.
  - vm_compute; discriminate.
  - vm_compute; reflexivity.
Defined.

(** C9 with the link down: the callback stays registered. *)
Lemma subscribe_failed_write_keeps_callback_witness :
  ∃ s1,
    subscribe Scenario.uuid (Some 1%positive) true (Scenario.start true)
      = (Raise (OtherError "NotConnectedError" "write failed"), s1) ∧
    1%positive ∈ callbacks_at (dev s1) 16 ∧
    _subscribed_handlers (dev s1) = ∅ ∧
    _characteristics (dev s1) = Scenario.the_table.
Proof.
  assert (get_handle Scenario.uuid (Scenario.start true)
          = (Ok 16, Scenario.resolved_down)) as Hg
    by (vm_compute; reflexivity).
  assert (_subscribed_handlers (dev (Scenario.start true)) !! 16
          ≠ Some (properties_of true)) as Hrec
    by (vm_compute; discriminate).
  assert (char_write_handle (16 + 1) (properties_of true) false
            (world Scenario.resolved_down)
          = (Raise (OtherError "NotConnectedError" "write failed"),
             world Scenario.resolved_down)) as Hw
    by (vm_compute; reflexivity).
  destruct (subscribe_failed_write_keeps_callback _ _ 1%positive _ _ _ _ _
              Hg Hrec Hw)
    as (s1 & Hs & _ & Hin & Hsub & _ & Hchars & _).
  exists s1. repeat split; assumption.
Defined.

(** C6 on a new device: a notification for a handle nobody subscribed to. *)
Lemma receive_notification_no_callbacks_witness :
  receive_notification 16 [xaa; xbb] (Scenario.start false)
  = (Ok tt, Scenario.start false).
Proof.
  apply receive_notification_no_callbacks. left. vm_compute; reflexivity.
Defined.

(** C10 on a new device: no key is created, the write is issued, and a
    notification is dropped. *)
Lemma subscribe_without_callback_witness :
  let (r, s1) := subscribe Scenario.uuid None false (Scenario.start false) in
  _callbacks (dev s1) = ∅ ∧
  writes (since [] (trace s1)) = [(17, [x01; x00], false)] ∧
  receive_notification 16 [xaa; xbb] s1 = (Ok tt, s1).
Proof.
  pose proof (subscribe_without_callback (Scenario.start false) Scenario.uuid
                false) as Hthm.
  destruct (subscribe Scenario.uuid None false (Scenario.start false))
    as [r s1].
  destruct Hthm as [Hcb Hrest].
  destruct (Hrest 16 Scenario.resolved ltac:(vm_compute; reflexivity))
    as [Hw Hdrop].
  repeat split.
  - exact Hcb.
  - exact Hw.
  - apply Hdrop. vm_compute; reflexivity.
Defined.

(** C4 on the scenario of the spec: after [subscribe(uuid, cb, False)], the
    notification [(0x10, AA BB)] calls [cb(0x10, AA BB)] once.  And with the
    two raising subscribers registered, the same notification stops at the
    first of them. *)
Lemma receive_notification_calls_each_once_witness :
  invocations 1%positive 16 [xaa; xbb]
    (since (trace Scenario.subscribed)
       (trace (Scenario.run (receive_notification 16 [xaa; xbb])
                 Scenario.subscribed)))
  = 1%nat ∧
  stopped_by_raise (callbacks_at (dev Scenario.two_raising) 16) 16 [xaa; xbb]
    (since (trace Scenario.two_raising)
       (trace (Scenario.run (receive_notification 16 [xaa; xbb])
                 Scenario.two_raising)))
    (OtherError "ValueError" "bad payload")
    (world (Scenario.run (receive_notification 16 [xaa; xbb])
              Scenario.two_raising)).
Proof.
  split.
  - assert (subscribe Scenario.uuid (Some 1%positive) false
              (Scenario.start false)
            = (Ok tt, Scenario.subscribed)) as Hs
      by (vm_compute; reflexivity).
    destruct (proj2 receive_notification_calls_each_once _ _ _ _ Hs)
      as (h & Hg & _ & Hone).
    assert (get_handle Scenario.uuid Scenario.subscribed
            = (Ok 16, Scenario.subscribed)) as Hg16
      by (vm_compute; reflexivity).
    rewrite Hg16 in Hg. injection Hg as <-.
    apply Hone. vm_compute; reflexivity.
  - pose proof (proj1 receive_notification_calls_each_once
                  Scenario.two_raising 16 [xaa; xbb]) as Hgen.
    assert (receive_notification 16 [xaa; xbb] Scenario.two_raising
            = (Raise (OtherError "ValueError" "bad payload"),
               Scenario.run (receive_notification 16 [xaa; xbb])
                 Scenario.two_raising)) as Hrn
      by (vm_compute; reflexivity).
    rewrite Hrn in Hgen. destruct Hgen as (_ & _ & _ & _ & Hraise).
    apply Hraise. reflexivity.
Defined.

(** Callbacks [10] and [11] raise.  With both registered by a successful
    [subscribe(uuid, cb, False)], the dispatch raises at the first one it
    calls and the other is never called: here [10], registered last, is in the
    set of handle [0x10] when the dispatch starts and is called zero times.
    (Whichever of the two the set yields first, one call is made, not two.) *)
Lemma receive_notification_raise_skips_callback :
  subscribe Scenario.uuid (Some 10%positive) false Scenario.one_raising
    = (Ok tt, Scenario.two_raising) ∧
  get_handle Scenario.uuid Scenario.two_raising
    = (Ok 16, Scenario.two_raising) ∧
  10%positive ∈ callbacks_at (dev Scenario.two_raising) 16 ∧
  (receive_notification 16 [xaa; xbb] Scenario.two_raising).1
    = Raise (OtherError "ValueError" "bad payload") ∧
  invocations 10%positive 16 [xaa; xbb]
    (since (trace Scenario.two_raising)
       (trace (Scenario.run (receive_notification 16 [xaa; xbb])
                 Scenario.two_raising)))
  = 0%nat.
Proof.
  split; [vm_compute; reflexivity|].
  split; [vm_compute; reflexivity|].
  split; [|split; vm_compute; reflexivity].
  apply elem_of_elements.
  replace (elements (callbacks_at (dev Scenario.two_raising) 16))
    with [11%positive; 10%positive] by (vm_compute; reflexivity).
  right. left.
Qed.

(** C7 on a new device: the same callback subscribed twice, then a second
    callback; both are called by a notification. *)
Lemma subscribe_callback_idempotent_witness :
  (∀ r2 s2,
     subscribe Scenario.uuid (Some 1%positive) false Scenario.subscribed
       = (r2, s2) →
     _callbacks (dev s2) = _callbacks (dev Scenario.subscribed)) ∧
  (∀ (cb' : Callback) (indication' : bool) r2 s2,
     subscribe Scenario.uuid (Some cb') indication' Scenario.subscribed
       = (r2, s2) →
     1%positive ∈ callbacks_at (dev s2) 16 ∧ cb' ∈ callbacks_at (dev s2) 16 ∧
     ∀ sd (value : list byte) r s3,
       dev sd = dev s2 →
       receive_notification 16 value sd = (r, s3) →
       dev s3 = dev s2 ∧
       (r = Ok tt →
        invocations 1%positive 16 value (since (trace sd) (trace s3)) = 1%nat ∧
        invocations cb' 16 value (since (trace sd) (trace s3)) = 1%nat ∧
        ∀ k, k ∈ callbacks_at (dev s2) 16 →
             ∃ w1 w2, call_callback k 16 value w1 = (Ok tt, w2)) ∧
       (∀ e, r = Raise e →
             stopped_by_raise (callbacks_at (dev s2) 16) 16 value
               (since (trace sd) (trace s3)) e (world s3)) ∧
       ((∀ k w, k ∈ callbacks_at (dev s2) 16 →
                (call_callback k 16 value w).1 = Ok tt) → r = Ok tt)).
Proof.
  apply (subscribe_callback_idempotent (Scenario.start false) Scenario.uuid
           1%positive false 16 Scenario.resolved (Ok tt) Scenario.subscribed).
  - vm_compute; reflexivity.
  - vm_compute; reflexivity.
Defined.

(** Callbacks [20] and [21] raise.  Both are registered for the uuid by
    successful calls of [subscribe], and the next notification for its handle
    calls only one of them. *)
Lemma receive_notification_raise_calls_one_of_two :
  subscribe Scenario.uuid (Some 20%positive) true (Scenario.start false)
    = (Ok tt, Scenario.one_faulty) ∧
  subscribe Scenario.uuid (Some 21%positive) true Scenario.one_faulty
    = (Ok tt, Scenario.two_faulty) ∧
  elements (callbacks_at (dev Scenario.two_faulty) 16)
    ≡ₚ [20%positive; 21%positive] ∧
  (invocations 20%positive 16 [x01]
     (since (trace Scenario.two_faulty)
        (trace (Scenario.run (receive_notification 16 [x01])
                  Scenario.two_faulty)))
   + invocations 21%positive 16 [x01]
       (since (trace Scenario.two_faulty)
          (trace (Scenario.run (receive_notification 16 [x01])
                    Scenario.two_faulty))))%nat
  = 1%nat.
Proof.
  split; [vm_compute; reflexivity|].
  split; [vm_compute; reflexivity|].
  split; [|vm_compute; reflexivity].
  replace (elements (callbacks_at (dev Scenario.two_faulty) 16))
    with [21%positive; 20%positive] by (vm_compute; reflexivity).
  apply Permutation_swap.
Qed.

(** ** Further properties of the methods *)

Lemma calls_app (tr1 tr2 : list Event) :
  calls (tr1 ++ tr2) = calls tr1 ++ calls tr2.
Proof. apply omap_app. Qed.

Lemma calls_callbacks h (value : list byte) (l : list Callback) :
  calls ((λ k, EvCallback k h value) <$> l) = (λ k, (k, h, value)) <$> l.
Proof.
  unfold calls. induction l as [|k l IH]; [done|].
  rewrite !fmap_cons. simpl. by f_equal.
Qed.

Lemma writes_callbacks h (value : list byte) (l : list Callback) :
  writes ((λ k, EvCallback k h value) <$> l) = [].
Proof. by induction l. Qed.

Lemma discoveries_callbacks h (value : list byte) (l : list Callback) :
  discoveries ((λ k, EvCallback k h value) <$> l) = 0%nat.
Proof.
  unfold discoveries. induction l as [|k l IH]; [done|].
  rewrite fmap_cons, filter_cons_False by done. exact IH.
Qed.

Section Frames.
Context {World WriteRet : Type}.
Context `{!Backend World WriteRet, !Subscribers World, !SetOrder}.

Implicit Types (s : Sys World) (uuid : string) (h : Z).

(** What [get_handle] can do to the state, whatever its outcome. *)
Lemma get_handle_shape s uuid r s0 :
  get_handle uuid s = (r, s0) →
  _callbacks (dev s0) = _callbacks (dev s) ∧
  _subscribed_handlers (dev s0) = _subscribed_handlers (dev s) ∧
  _address (dev s0) = _address (dev s) ∧
  (trace s0 = trace s ∨ trace s0 = trace s ++ [EvDiscover]).
Proof.
  destruct (_characteristics (dev s) !! uuid) as [c|] eqn:Hc.
  - rewrite (get_handle_hit _ _ _ Hc). intros [= <- <-]. auto.
  - rewrite (get_handle_miss _ _ Hc).
    destruct (discover_characteristics (world s)) as [[tbl|e] w']; simpl.
    + destruct (tbl !! uuid); intros [= <- <-]; simpl; auto.
    + intros [= <- <-]. simpl. auto.
Qed.

(** The three ways [subscribe] can go: the lookup raises; the configuration
    is already the recorded one; or the write is attempted. *)
Lemma subscribe_shape s uuid (callback : option Callback) (indication : bool)
    r s1 :
  subscribe uuid callback indication s = (r, s1) →
  (∃ e, get_handle uuid s = (Raise e, s1) ∧ r = Raise e) ∨
  (∃ h s0, get_handle uuid s = (Ok h, s0) ∧
     let props := properties_of indication in
     let d := with_callback h callback (dev s0) in
     (_subscribed_handlers (dev s0) !! h = Some props ∧
      r = Ok tt ∧ s1 = mkSys d (world s0) (trace s0)) ∨
     (_subscribed_handlers (dev s0) !! h ≠ Some props ∧
      trace s1 = trace s0 ++ [EvWrite (h + 1) props false] ∧
      ((r = Ok tt ∧ dev s1 = set_subscribed h props d) ∨
       (∃ e, r = Raise e ∧ dev s1 = d)))).
Proof.
  destruct (get_handle uuid s) as [[h|e] s0] eqn:Hg.
  - intros Hs. right. exists h, s0. split; [done|]. simpl.
    destruct (decide (_subscribed_handlers (dev s0) !! h
                      = Some (properties_of indication))) as [Hrec|Hrec].
    + rewrite (subscribe_skip _ _ _ _ _ _ Hg Hrec) in Hs.
      injection Hs as <- <-. by left.
    + rewrite (subscribe_write _ _ _ _ _ _ Hg Hrec) in Hs. simpl in Hs.
      right. split; [done|].
      destruct (char_write_handle _ _ _ _) as [[?|e] ?];
        injection Hs as <- <-; simpl; (split; [done|]); eauto.
  - rewrite (subscribe_raise_lookup _ _ _ _ _ _ Hg).
    intros [= <- <-]. left. by exists e.
Qed.

(** What [char_write] can do to the state, whatever its outcome. *)
Lemma char_write_shape s uuid (value : list byte) (wait_for_response : bool)
    r s1 :
  char_write uuid value wait_for_response s = (r, s1) →
  (∃ e, get_handle uuid s = (Raise e, s1)) ∨
  (∃ h s0, get_handle uuid s = (Ok h, s0) ∧ dev s1 = dev s0 ∧
     trace s1 = trace s0 ++ [EvWrite h value wait_for_response]).
Proof.
  unfold char_write, bind.
  destruct (get_handle uuid s) as [[h|e] s0] eqn:Hg.
  - unfold dev_char_write_handle, extern.
    destruct (char_write_handle _ _ _ _) as [? ?].
    intros [= <- <-]. right. by exists h, s0.
  - intros [= <- <-]. left. by exists e.
Qed.

Lemma with_callback_address h (callback : option Callback) (d : BLEDevice) :
  _address (with_callback h callback d) = _address d.
Proof. by destruct callback. Qed.

Lemma with_callback_characteristics h (callback : option Callback)
    (d : BLEDevice) :
  _characteristics (with_callback h callback d) = _characteristics d.
Proof. by destruct callback. Qed.

Lemma with_callback_other h h' (callback : option Callback) (d : BLEDevice) :
  h' ≠ h →
  _callbacks (with_callback h callback d) !! h' = _callbacks d !! h'.
Proof.
  intros Hne. destruct callback as [cb|]; [|done].
  simpl. by rewrite lookup_insert_ne.
Qed.

(** *** What one call can change *)

Lemma receive_notification_trace s h (value : list byte) r s' :
  receive_notification h value s = (r, s') →
  dev s' = dev s ∧
  ∃ called, called `prefix_of` set_iter (callbacks_at (dev s) h) ∧
    trace s' = trace s ++ ((λ k, EvCallback k h value) <$> called).
Proof.
  unfold receive_notification, callbacks_at, bind, gets.
  destruct (_callbacks (dev s) !! h) as [cbs|]; simpl.
  - intros (Hdev & called & Hpre & Htr & _)%for_each_callbacks.
    split; [done|]. by exists called.
  - intros [= <- <-]. split; [done|]. exists [].
    split; [apply prefix_nil|]. by rewrite app_nil_r.
Qed.

Lemma perform_callbacks (c : Call) s :
  _callbacks (dev (perform c s)) = _callbacks (dev s) ∨
  ∃ h cb, _callbacks (dev (perform c s)) =
            <[h := callbacks_at (dev s) h ∪ {[cb]}]> (_callbacks (dev s)).
Proof.
  destruct c as [uuid|uuid value wfr|uuid callback indication|h value]; simpl.
  - destruct (get_handle uuid s) as [r s0] eqn:Hg. simpl.
    apply get_handle_shape in Hg as (-> & _). by left.
  - destruct (char_write uuid value wfr s) as [r s1] eqn:Hw. simpl.
    apply char_write_shape in Hw as [(e & Hg)|(h & s0 & Hg & -> & _)];
      apply get_handle_shape in Hg as (-> & _); by left.
  - destruct (subscribe uuid callback indication s) as [r s1] eqn:Hs. simpl.
    destruct (get_handle uuid s) as [[h|e] s0] eqn:Hg.
    + destruct (subscribe_outcome _ _ _ _ _ _ _ _ Hg Hs) as [-> _].
      destruct callback as [cb|]; [right; by exists h, cb|by left].
    + rewrite (subscribe_raise_lookup _ _ _ _ _ _ Hg) in Hs.
      injection Hs as _ <-.
      apply get_handle_shape in Hg as (-> & _). by left.
  - destruct (receive_notification h value s) as [r s1] eqn:Hrn. simpl.
    apply receive_notification_trace in Hrn as (-> & _). by left.
Qed.

Lemma perform_address (c : Call) s :
  _address (dev (perform c s)) = _address (dev s).
Proof.
  destruct c as [uuid|uuid value wfr|uuid callback indication|h value]; simpl.
  - destruct (get_handle uuid s) as [r s0] eqn:Hg. simpl.
    by apply get_handle_shape in Hg as (_ & _ & -> & _).
  - destruct (char_write uuid value wfr s) as [r s1] eqn:Hw. simpl.
    apply char_write_shape in Hw as [(e & Hg)|(h & s0 & Hg & -> & _)];
      by apply get_handle_shape in Hg as (_ & _ & -> & _).
  - destruct (subscribe uuid callback indication s) as [r s1] eqn:Hs. simpl.
    apply subscribe_shape in Hs
      as [(e & Hg & _)|(h & s0 & Hg & [(_ & _ & ->)|(_ & _ & Hd)])];
      apply get_handle_shape in Hg as (_ & _ & Ha & _); [done| |].
    + simpl. by rewrite with_callback_address.
    + destruct Hd as [[_ ->]|(e & _ & ->)]; simpl;
        by rewrite with_callback_address.
  - destruct (receive_notification h value s) as [r s1] eqn:Hrn. simpl.
    by apply receive_notification_trace in Hrn as (-> & _).
Qed.

Lemma perform_trace (c : Call) s : trace s `prefix_of` trace (perform c s).
Proof.
  assert (∀ s0 r uuid, get_handle uuid s = (r, s0) →
                       trace s `prefix_of` trace s0) as Hget.
  { intros s0 r uuid (_ & _ & _ & [-> | ->])%get_handle_shape;
      [done|by apply prefix_app_r]. }
  destruct c as [uuid|uuid value wfr|uuid callback indication|h value]; simpl.
  - destruct (get_handle uuid s) as [r s0] eqn:Hg. by eapply Hget.
  - destruct (char_write uuid value wfr s) as [r s1] eqn:Hw. simpl.
    apply char_write_shape in Hw as [(e & Hg)|(h & s0 & Hg & _ & ->)].
    + by eapply Hget.
    + apply prefix_app_r. by eapply Hget.
  - destruct (subscribe uuid callback indication s) as [r s1] eqn:Hs. simpl.
    apply subscribe_shape in Hs
      as [(e & Hg & _)|(h & s0 & Hg & [(_ & _ & ->)|(_ & -> & _)])].
    + by eapply Hget.
    + simpl. by eapply Hget.
    + apply prefix_app_r. by eapply Hget.
  - destruct (receive_notification h value s) as [r s1] eqn:Hrn. simpl.
    apply receive_notification_trace in Hrn as (_ & called & _ & ->).
    by apply prefix_app_r.
Qed.

(** A call records at most one configuration, one that [subscribe] builds
    and that was written just before. *)
Lemma perform_subscribed (c : Call) s :
  _subscribed_handlers (dev (perform c s)) = _subscribed_handlers (dev s) ∨
  ∃ h indication,
    _subscribed_handlers (dev (perform c s)) =
      <[h := properties_of indication]> (_subscribed_handlers (dev s)) ∧
    (h + 1, properties_of indication, false) ∈ writes (trace (perform c s)).
Proof.
  destruct c as [uuid|uuid value wfr|uuid callback indication|h value]; simpl.
  - destruct (get_handle uuid s) as [r s0] eqn:Hg. simpl.
    apply get_handle_shape in Hg as (_ & -> & _). by left.
  - destruct (char_write uuid value wfr s) as [r s1] eqn:Hw. simpl.
    apply char_write_shape in Hw as [(e & Hg)|(h & s0 & Hg & -> & _)];
      apply get_handle_shape in Hg as (_ & -> & _); by left.
  - destruct (subscribe uuid callback indication s) as [r s1] eqn:Hs. simpl.
    apply subscribe_shape in Hs
      as [(e & Hg & _)|(h & s0 & Hg & [(_ & _ & ->)|(_ & Htr & Hd)])];
      apply get_handle_shape in Hg as (_ & Hsub & _).
    + by left.
    + left. simpl. by rewrite with_callback_subscribed.
    + destruct Hd as [[_ ->]|(e & _ & ->)].
      * right. exists h, indication. simpl.
        rewrite with_callback_subscribed, Hsub. split; [done|].
        rewrite Htr, writes_app. apply elem_of_app. right. simpl. by left.
      * left. by rewrite with_callback_subscribed.
  - destruct (receive_notification h value s) as [r s1] eqn:Hrn. simpl.
    apply receive_notification_trace in Hrn as (-> & _). by left.
Qed.

(** *** Handle lookup *)

Lemma get_handle_miss_trace s uuid :
  _characteristics (dev s) !! uuid = None →
  since (trace s) (trace (get_handle uuid s).2) = [EvDiscover].
Proof.
  intros Hc. rewrite (get_handle_miss _ _ Hc).
  destruct (discover_characteristics (world s)) as [[tbl|e] w']; simpl.
  - destruct (tbl !! uuid); simpl; by rewrite since_app.
  - by rewrite since_app.
Qed.

(** X1.  Once [get_handle] has returned a handle, looking the same uuid up
    again returns the same handle without calling the backend and without
    changing anything. *)
Theorem get_handle_repeat s uuid h s0 :
  get_handle uuid s = (Ok h, s0) →
  get_handle uuid s0 = (Ok h, s0).
Proof. intros Hg. by apply (get_handle_again _ _ _ _ Hg). Qed.

(** X2.  Whatever its outcome, [get_handle] leaves [_callbacks],
    [_subscribed_handlers] and [_address] alone, writes nothing and calls no
    callback; it calls the discovery once when the uuid is not in the table
    and not at all when it is. *)
Theorem get_handle_frame s uuid :
  let s0 := (get_handle uuid s).2 in
  _callbacks (dev s0) = _callbacks (dev s) ∧
  _subscribed_handlers (dev s0) = _subscribed_handlers (dev s) ∧
  _address (dev s0) = _address (dev s) ∧
  writes (since (trace s) (trace s0)) = [] ∧
  calls (since (trace s) (trace s0)) = [] ∧
  discoveries (since (trace s) (trace s0)) =
    (if bool_decide (is_Some (_characteristics (dev s) !! uuid))
     then 0%nat else 1%nat).
Proof.
  destruct (get_handle uuid s) as [r s0] eqn:Hg. simpl.
  pose proof (get_handle_shape _ _ _ _ Hg) as (Hcb & Hsub & Ha & _).
  repeat (split; [done|]).
  destruct (_characteristics (dev s) !! uuid) as [c|] eqn:Hc.
  - rewrite (get_handle_hit _ _ _ Hc) in Hg. injection Hg as _ <-.
    rewrite since_refl. rewrite bool_decide_eq_true_2 by eauto. done.
  - rewrite bool_decide_eq_false_2 by (by intros [? ?]).
    pose proof (get_handle_miss_trace s uuid Hc) as Haux.
    rewrite Hg in Haux. simpl in Haux. by rewrite Haux.
Qed.

(** *** [subscribe] *)

(** After a [subscribe] that returned, the requested configuration is the
    recorded one and the table is as the lookup left it. *)
Lemma subscribe_records_config_aux s uuid (callback : option Callback)
    (indication : bool) h s0 s1 :
  get_handle uuid s = (Ok h, s0) →
  subscribe uuid callback indication s = (Ok tt, s1) →
  _subscribed_handlers (dev s1) !! h = Some (properties_of indication) ∧
  _characteristics (dev s1) = _characteristics (dev s0).
Proof.
  intros Hg Hs.
  apply subscribe_shape in Hs
    as [(e & _ & ?)|(h' & s0' & Hg' & Hcases)]; [done|].
  rewrite Hg in Hg'. injection Hg' as <- <-. simpl in Hcases.
  destruct Hcases as [(Hrec & _ & ->)|(_ & _ & [[_ ->]|(e & ? & _)])];
    [| |done]; simpl.
  - by rewrite with_callback_subscribed, with_callback_characteristics.
  - rewrite lookup_insert_eq. by rewrite with_callback_characteristics.
Qed.

(** X3.  When the handle lookup of [subscribe] raises (the uuid is unknown
    after discovery, or the discovery fails), [subscribe] raises the same
    exception without registering the callback, recording a configuration or
    writing anything. *)
Theorem subscribe_lookup_raises_registers_nothing s uuid
    (callback : option Callback) (indication : bool) e s0 :
  get_handle uuid s = (Raise e, s0) →
  subscribe uuid callback indication s = (Raise e, s0) ∧
  _callbacks (dev s0) = _callbacks (dev s) ∧
  _subscribed_handlers (dev s0) = _subscribed_handlers (dev s) ∧
  writes (since (trace s) (trace s0)) = [].
Proof.
  intros Hg. split; [by apply subscribe_raise_lookup|].
  pose proof (get_handle_shape _ _ _ _ Hg) as (Hcb & Hsub & _).
  repeat (split; [done|]). by apply (get_handle_no_write _ _ _ _ Hg).
Qed.

(** X4.  When [subscribe] returns, the configuration recorded for the
    handle of the uuid is the requested one ([0x02 0x00] for indications,
    [0x01 0x00] for notifications), the callback (if any) is registered for
    that handle, and the uuid is in the table. *)
Theorem subscribe_records_config s uuid (callback : option Callback)
    (indication : bool) s1 :
  subscribe uuid callback indication s = (Ok tt, s1) →
  ∃ h, get_handle uuid s1 = (Ok h, s1) ∧
    _subscribed_handlers (dev s1) !! h
      = Some [if indication then x02 else x01; x00] ∧
    ∀ cb, callback = Some cb → cb ∈ callbacks_at (dev s1) h.
Proof.
  intros Hs.
  destruct (subscribe_ok_resolved _ _ _ _ _ Hs) as (h & s0 & Hg).
  destruct (subscribe_outcome _ _ _ _ _ _ _ _ Hg Hs) as [Hcb Hg1].
  exists h. split; [done|]. split.
  - by destruct (subscribe_records_config_aux _ _ _ _ _ _ _ Hg Hs).
  - intros cb ->. unfold callbacks_at at 1. rewrite Hcb.
    fold (callbacks_at (with_callback h (Some cb) (dev s)) h). simpl.
    rewrite callbacks_at_add. in_union.
Qed.

(** X5.  [subscribe] touches the entries of the value handle only: for
    every other handle the registered callbacks and the recorded
    configuration are as before, whatever the outcome; [_address] is as
    before too. *)
Theorem subscribe_other_handles_untouched s uuid (callback : option Callback)
    (indication : bool) h s0 :
  get_handle uuid s = (Ok h, s0) →
  let s1 := (subscribe uuid callback indication s).2 in
  _address (dev s1) = _address (dev s) ∧
  ∀ h', h' ≠ h →
    _callbacks (dev s1) !! h' = _callbacks (dev s) !! h' ∧
    _subscribed_handlers (dev s1) !! h' = _subscribed_handlers (dev s) !! h'.
Proof.
  intros Hg.
  destruct (subscribe uuid callback indication s) as [r s1] eqn:Hs. simpl.
  split.
  { pose proof (perform_address (call_subscribe uuid callback indication) s)
      as Ha. simpl in Ha. by rewrite Hs in Ha. }
  intros h' Hne.
  destruct (subscribe_outcome _ _ _ _ _ _ _ _ Hg Hs) as [Hcb _].
  split; [rewrite Hcb; by apply with_callback_other|].
  pose proof (get_handle_shape _ _ _ _ Hg) as (_ & Hsub & _).
  apply subscribe_shape in Hs
    as [(e & Hg' & _)|(h2 & s2 & Hg' & Hcases)]; [congruence|].
  rewrite Hg in Hg'. injection Hg' as <- <-. simpl in Hcases.
  destruct Hcases as [(_ & _ & ->)|(_ & _ & [[_ ->]|(e & _ & ->)])]; simpl;
    rewrite ?lookup_insert_ne by done;
    by rewrite with_callback_subscribed, Hsub.
Qed.

(** X6.  One call of [subscribe] calls no callback, discovers at most
    once, and writes at most once; what it writes is the two configuration
    bytes, without waiting for a response. *)
Theorem subscribe_calls_out s uuid (callback : option Callback)
    (indication : bool) :
  let new := since (trace s) (trace (subscribe uuid callback indication s).2) in
  calls new = [] ∧
  (discoveries new ≤ 1)%nat ∧
  (writes new = [] ∨
   ∃ h, writes new = [(h + 1, [if indication then x02 else x01; x00], false)]).
Proof.
  destruct (subscribe uuid callback indication s) as [r s1] eqn:Hs. simpl.
  apply subscribe_shape in Hs as [(e & Hg & _)|(h & s0 & Hg & Hcases)].
  - apply get_handle_shape in Hg as (_ & _ & _ & [-> | ->]).
    + rewrite since_refl. repeat split; auto.
    + rewrite since_app. repeat split; auto.
  - simpl in Hcases.
    apply get_handle_shape in Hg as (_ & _ & _ & Htr0).
    destruct Hcases as [(_ & _ & ->)|(_ & -> & _)]; simpl;
      destruct Htr0 as [-> | ->];
      rewrite <- ?app_assoc, ?since_app, ?since_refl;
      repeat split; auto; right; by exists h.
Qed.

(** X7.  Callbacks and configurations are kept per handle, not per uuid:
    after a [subscribe] that returned, a [subscribe] with the same flag for
    another uuid of the table that has the same handle returns without any
    call to the backend, and both callbacks are registered for the handle. *)
Theorem subscribe_keyed_by_handle s uuid1 uuid2 (cb1 cb2 : Callback)
    (indication : bool) c1 c2 s1 :
  _characteristics (dev s) !! uuid1 = Some c1 →
  _characteristics (dev s) !! uuid2 = Some c2 →
  handle c1 = handle c2 →
  subscribe uuid1 (Some cb1) indication s = (Ok tt, s1) →
  ∃ s2, subscribe uuid2 (Some cb2) indication s1 = (Ok tt, s2) ∧
    trace s2 = trace s1 ∧ world s2 = world s1 ∧
    cb1 ∈ callbacks_at (dev s2) (handle c1) ∧
    cb2 ∈ callbacks_at (dev s2) (handle c1).
Proof.
  intros Hc1 Hc2 Hh Hs.
  pose proof (get_handle_hit _ _ _ Hc1) as Hg.
  destruct (subscribe_outcome _ _ _ _ _ _ _ _ Hg Hs) as [Hcb _].
  destruct (subscribe_records_config_aux _ _ _ _ _ _ _ Hg Hs) as [Hrec Hchars].
  assert (get_handle uuid2 s1 = (Ok (handle c1), s1)) as Hg2.
  { rewrite Hh. apply get_handle_hit. by rewrite Hchars. }
  rewrite (subscribe_skip _ _ _ _ _ _ Hg2 Hrec).
  eexists. split; [done|]. simpl. repeat (split; [done|]).
  rewrite !callbacks_at_add.
  assert (cb1 ∈ callbacks_at (dev s1) (handle c1)) as Hin1.
  { unfold callbacks_at at 1. rewrite Hcb.
    fold (callbacks_at (with_callback (handle c1) (Some cb1) (dev s))
            (handle c1)).
    simpl. rewrite callbacks_at_add. in_union. }
  split; in_union.
Qed.

(** X8.  A callback registered by a [subscribe] whose write raised is
    called all the same: a later notification for the handle that is
    dispatched to the end calls it exactly once. *)
Theorem failed_subscribe_callback_dispatched s uuid (cb : Callback)
    (indication : bool) h s0 e s1 :
  get_handle uuid s = (Ok h, s0) →
  subscribe uuid (Some cb) indication s = (Raise e, s1) →
  _subscribed_handlers (dev s1) !! h ≠ Some (properties_of indication) ∧
  ∀ (value : list byte) s2,
    receive_notification h value s1 = (Ok tt, s2) →
    invocations cb h value (since (trace s1) (trace s2)) = 1%nat.
Proof.
  intros Hg Hs.
  destruct (subscribe_outcome _ _ _ _ _ _ _ _ Hg Hs) as [Hcb _].
  split.
  - apply subscribe_shape in Hs
      as [(e' & Hg' & _)|(h' & s0' & Hg' & Hcases)]; [congruence|].
    rewrite Hg in Hg'. injection Hg' as <- <-. simpl in Hcases.
    destruct Hcases as [(_ & ? & _)|(Hrec & _ & [[? _]|(e' & _ & ->)])];
      [done|done|].
    exact Hrec.
  - intros value s2 Hrn.
    apply receive_notification_counts in Hrn as (_ & _ & _ & Hone).
    apply Hone; [done|]. unfold callbacks_at at 1. rewrite Hcb.
    fold (callbacks_at (with_callback h (Some cb) (dev s)) h). simpl.
    rewrite callbacks_at_add. in_union.
Qed.

(** *** [receive_notification] *)

(** X9.  Whatever its outcome, [receive_notification] leaves every field
    of the device alone, writes nothing and discovers nothing; and every call
    it makes is a call of a callback registered for that handle, with that
    handle and that value. *)
Theorem receive_notification_frame s h (value : list byte) :
  let s' := (receive_notification h value s).2 in
  dev s' = dev s ∧
  writes (since (trace s) (trace s')) = [] ∧
  discoveries (since (trace s) (trace s')) = 0%nat ∧
  ∀ k h' value', (k, h', value') ∈ calls (since (trace s) (trace s')) →
    k ∈ callbacks_at (dev s) h ∧ h' = h ∧ value' = value.
Proof.
  destruct (receive_notification h value s) as [r s'] eqn:Hrn. simpl.
  apply receive_notification_calls in Hrn as (Hdev & called & Hpre & -> & _).
  split; [done|]. split; [apply writes_callbacks|].
  split; [apply discoveries_callbacks|].
  intros k h' value'. rewrite calls_callbacks.
  intros (k' & [= -> -> ->] & Hk')%list_elem_of_fmap.
  split; [|done]. apply elem_of_set_iter.
  destruct Hpre as [rest ->]. apply elem_of_app. by left.
Qed.

Lemma for_each_raise h (value : list byte) (l : list Callback) s e s' :
  for_each l (λ callback, extern (EvCallback callback h value)
                                 (call_callback callback h value)) s
    = (Raise e, s') →
  ∃ called k rest w,
    l = called ++ k :: rest ∧
    trace s' = trace s ++ ((λ k, EvCallback k h value) <$> (called ++ [k])) ∧
    call_callback k h value w = (Raise e, world s').
Proof.
  revert s. induction l as [|k l IH]; intros s; simpl; [done|].
  unfold bind at 1, extern at 1.
  destruct (call_callback k h value (world s)) as [[[]|e'] w1] eqn:Hk.
  - intros (called & k' & rest & w & -> & Htr & Hraise)%IH. simpl in Htr.
    exists (k :: called), k', rest, w. split; [done|]. split; [|done].
    by rewrite Htr, <- app_assoc.
  - intros [= <- <-]. exists [], k, l, (world s). by simpl.
Qed.

(** X10.  When [receive_notification] raises, the exception is the one
    raised by the last callback it called: that callback is registered for
    the handle, the callbacks called before it are registered too and are
    others, and the state of the outside is as the raising callback left
    it. *)
Theorem receive_notification_raise s h (value : list byte) e s' :
  receive_notification h value s = (Raise e, s') →
  ∃ called k w,
    since (trace s) (trace s') =
      ((λ k, EvCallback k h value) <$> called) ++ [EvCallback k h value] ∧
    k ∈ callbacks_at (dev s) h ∧ (k ∉ called) ∧
    (∀ k', k' ∈ called → k' ∈ callbacks_at (dev s) h) ∧
    call_callback k h value w = (Raise e, world s').
Proof.
  unfold receive_notification, callbacks_at, bind, gets.
  destruct (_callbacks (dev s) !! h) as [cbs|] eqn:Hcbs; simpl; [|done].
  intros (called & k & rest & w & Hl & Htr & Hraise)%for_each_raise.
  exists called, k, w. rewrite Htr, since_app, fmap_app. simpl.
  split; [done|].
  pose proof (set_iter_NoDup cbs) as Hnd. rewrite Hl in Hnd.
  apply NoDup_app in Hnd as (_ & Hdisj & _).
  assert (∀ x, x ∈ called ++ k :: rest → x ∈ cbs) as Hin.
  { intros x Hx. apply elem_of_set_iter. by rewrite Hl. }
  split; [apply Hin, elem_of_app; right; by left|].
  split; [intros Hk; apply (Hdisj k Hk); by left|].
  split; [|done]. intros k' Hk'. apply Hin, elem_of_app. by left.
Qed.

(** *** [char_write] *)

(** X11.  Whatever its outcome, [char_write] leaves [_callbacks],
    [_subscribed_handlers] and [_address] alone and calls no callback: a write
    to a configuration attribute made through it is not recorded as a
    subscription. *)
Theorem char_write_frame s uuid (value : list byte) (wait_for_response : bool) :
  let s1 := (char_write uuid value wait_for_response s).2 in
  _callbacks (dev s1) = _callbacks (dev s) ∧
  _subscribed_handlers (dev s1) = _subscribed_handlers (dev s) ∧
  _address (dev s1) = _address (dev s) ∧
  calls (since (trace s) (trace s1)) = [] ∧
  (discoveries (since (trace s) (trace s1)) ≤ 1)%nat.
Proof.
  destruct (char_write uuid value wait_for_response s) as [r s1] eqn:Hw. simpl.
  apply char_write_shape in Hw as [(e & Hg)|(h & s0 & Hg & Hdev & Htr)];
    apply get_handle_shape in Hg as (Hcb & Hsub & Ha & Htr0).
  - repeat (split; [done|]).
    destruct Htr0 as [-> | ->]; rewrite ?since_refl, ?since_app; auto.
  - rewrite Hdev. repeat (split; [done|]). rewrite Htr.
    destruct Htr0 as [-> | ->];
      rewrite <- ?app_assoc, since_app; simpl; auto.
Qed.

(** *** Invariants of a device in use *)

Lemma perform_all_cons (c : Call) (cs : list Call) s :
  perform_all (c :: cs) s = perform_all cs (perform c s).
Proof. done. Qed.

(** An invariant of every call is an invariant of every sequence. *)
Lemma perform_all_invariant (P : Sys World → Prop) :
  (∀ c s, P s → P (perform c s)) →
  ∀ cs s, P s → P (perform_all cs s).
Proof.
  intros Hstep cs. induction cs as [|c cs IH]; intros s Hs; [done|].
  rewrite perform_all_cons. by apply IH, Hstep.
Qed.

Lemma properties_of_cases (indication : bool) :
  properties_of indication = [x01; x00] ∨ properties_of indication = [x02; x00].
Proof. destruct indication; auto. Qed.

(** X13.  In every state a new device reaches by any sequence of calls,
    the configuration recorded for a handle, if any, is [0x01 0x00] or
    [0x02 0x00]. *)
Theorem configs_valid_reachable (address : string) (w : World)
    (cs : list Call) :
  configs_valid (dev (perform_all cs (new_device address w))).
Proof.
  apply (perform_all_invariant (λ s, configs_valid (dev s))).
  - intros c s Hinv. unfold configs_valid in *.
    destruct (perform_subscribed c s) as [-> | (h & ind & -> & _)]; [done|].
    apply map_Forall_insert_2; [apply properties_of_cases|done].
  - apply map_Forall_empty.
Qed.

Lemma writes_prefix (tr tr' : list Event) w :
  tr `prefix_of` tr' → w ∈ writes tr → w ∈ writes tr'.
Proof.
  intros [rest ->] Hw. rewrite writes_app. apply elem_of_app. by left.
Qed.

(** X14.  In every state a new device reaches by any sequence of calls, a
    configuration is recorded for a handle only if it was written: the log
    has a write of those bytes to the handle after it, without waiting for a
    response. *)
Theorem configs_written_reachable (address : string) (w : World)
    (cs : list Call) h (v : list byte) :
  let s := perform_all cs (new_device address w) in
  _subscribed_handlers (dev s) !! h = Some v →
  (h + 1, v, false) ∈ writes (trace s).
Proof.
  simpl. revert h v.
  change (configs_written (perform_all cs (new_device address w))).
  apply (perform_all_invariant configs_written).
  - intros c s Hinv. unfold configs_written in *.
    pose proof (perform_trace c s) as Hpre.
    assert (map_Forall (λ h (v : list byte),
              (h + 1, v, false) ∈ writes (trace (perform c s)))
              (_subscribed_handlers (dev s))) as Hold.
    { intros h v Hv. eapply writes_prefix; [done|]. by apply Hinv. }
    destruct (perform_subscribed c s) as [-> | (h & ind & -> & Hw)]; [done|].
    by apply map_Forall_insert_2.
  - apply map_Forall_empty.
Qed.

(** X15.  Nothing is ever taken back: over any sequence of calls, from any
    state, a callback registered for a handle stays registered, a handle with
    a recorded configuration keeps one, [_address] does not change, and the
    log only grows. *)
Theorem perform_all_monotone (cs : list Call) s :
  let s' := perform_all cs s in
  (∀ h, callbacks_at (dev s) h ⊆ callbacks_at (dev s') h) ∧
  dom (_subscribed_handlers (dev s)) ⊆ dom (_subscribed_handlers (dev s')) ∧
  _address (dev s') = _address (dev s) ∧
  trace s `prefix_of` trace s'.
Proof.
  simpl. revert s. induction cs as [|c cs IH]; intros s; [done|].
  rewrite perform_all_cons.
  destruct (IH (perform c s)) as (Hcb & Hdom & Ha & Htr).
  split; [|split; [|split]].
  - intros h. etrans; [|apply Hcb]. unfold callbacks_at.
    destruct (perform_callbacks c s) as [-> | (h' & cb & ->)]; [done|].
    destruct (decide (h' = h)) as [->|Hne].
    + rewrite lookup_insert_eq. simpl. apply union_subseteq_l.
    + by rewrite lookup_insert_ne.
  - etrans; [|apply Hdom].
    destruct (perform_subscribed c s) as [-> | (h' & ind & -> & _)]; [done|].
    rewrite dom_insert_L. apply union_subseteq_r.
  - by rewrite Ha, perform_address.
  - etrans; [apply perform_trace|done].
Qed.

(** X16.  With a backend whose [char_write_handle] always raises (as the
    one of the class itself, which raises [NotImplementedError]), no sequence
    of calls ever records a configuration: [_subscribed_handlers] stays as it
    was. *)
Theorem no_config_recorded_when_writes_raise (cs : list Call) s :
  (∀ h (value : list byte) (wait_for_response : bool) w,
     ∃ e w', char_write_handle h value wait_for_response w = (Raise e, w')) →
  _subscribed_handlers (dev (perform_all cs s)) = _subscribed_handlers (dev s).
Proof.
  intros Hfail. revert s. induction cs as [|c cs IH]; intros s; [done|].
  rewrite perform_all_cons, IH.
  destruct (perform_subscribed c s) as [Hsame | (h & ind & _ & _)]; [done|].
  destruct c as [uuid|uuid value wfr|uuid callback indication|h' value]; simpl.
  - destruct (get_handle uuid s) as [r s0] eqn:Hg. simpl.
    by apply get_handle_shape in Hg as (_ & -> & _).
  - destruct (char_write uuid value wfr s) as [r s1] eqn:Hw. simpl.
    apply char_write_shape in Hw as [(e & Hg)|(hv & s0 & Hg & -> & _)];
      by apply get_handle_shape in Hg as (_ & -> & _).
  - destruct (get_handle uuid s) as [[hv|e] s0] eqn:Hg.
    + pose proof (get_handle_shape _ _ _ _ Hg) as (_ & Hsub & _).
      destruct (decide (_subscribed_handlers (dev s0) !! hv
                        = Some (properties_of indication))) as [Hrec|Hrec].
      * rewrite (subscribe_skip _ _ _ _ _ _ Hg Hrec). simpl.
        by rewrite with_callback_subscribed.
      * rewrite (subscribe_write _ _ _ _ _ _ Hg Hrec). simpl.
        destruct (Hfail (hv + 1) (properties_of indication) false (world s0))
          as (e & w' & ->).
        simpl. by rewrite with_callback_subscribed.
    + rewrite (subscribe_raise_lookup _ _ _ _ _ _ Hg). simpl.
      by apply get_handle_shape in Hg as (_ & -> & _).
  - destruct (receive_notification h' value s) as [r s1] eqn:Hrn. simpl.
    by apply receive_notification_trace in Hrn as (-> & _).
Qed.

End Frames.

(** ** The further properties on concrete backends *)

(** X1 on the new device of the scenario. *)
Lemma get_handle_repeat_witness :
  get_handle Scenario.uuid Scenario.resolved = (Ok 16, Scenario.resolved).
Proof.
  apply (get_handle_repeat (Scenario.start false)).
  vm_compute; reflexivity.
Defined.

(** X3 for a uuid the backend does not know. *)
Lemma subscribe_lookup_raises_registers_nothing_witness :
  (subscribe "2a00" (Some 1%positive) false (Scenario.start false)).1
    = Raise (BLEError "No characteristic found matching 2a00") ∧
  _callbacks
    (dev (subscribe "2a00" (Some 1%positive) false (Scenario.start false)).2)
    = ∅.
Proof.
  assert (get_handle "2a00" (Scenario.start false)
          = (Raise (BLEError "No characteristic found matching 2a00"),
             (get_handle "2a00" (Scenario.start false)).2)) as Hg
    by (vm_compute; reflexivity).
  destruct (subscribe_lookup_raises_registers_nothing _ _ (Some 1%positive)
              false _ _ Hg) as (Hs & Hcb & _).
  rewrite Hs. simpl. split; [reflexivity|exact Hcb].
Defined.

(** X4 on the scenario of the spec. *)
Lemma subscribe_records_config_witness :
  ∃ h, get_handle Scenario.uuid Scenario.subscribed
         = (Ok h, Scenario.subscribed) ∧
    _subscribed_handlers (dev Scenario.subscribed) !! h = Some [x01; x00] ∧
    ∀ cb, Some 1%positive = Some cb → cb ∈ callbacks_at (dev Scenario.subscribed) h.
Proof.
  apply (subscribe_records_config (Scenario.start false) Scenario.uuid
           (Some 1%positive) false Scenario.subscribed).
  vm_compute; reflexivity.
Defined.

(** X5 on the scenario of the spec. *)
Lemma subscribe_other_handles_untouched_witness :
  _address (dev Scenario.subscribed) = "01:23:45:67:89:ab" ∧
  ∀ h', h' ≠ 16 →
    _callbacks (dev Scenario.subscribed) !! h' = None ∧
    _subscribed_handlers (dev Scenario.subscribed) !! h' = None.
Proof.
  apply (subscribe_other_handles_untouched (Scenario.start false)
           Scenario.uuid (Some 1%positive) false 16 Scenario.resolved).
  vm_compute; reflexivity.
Defined.

(** X7 for a long and a short uuid of the same characteristic. *)
Lemma subscribe_keyed_by_handle_witness :
  ∃ s2, subscribe Aliased.uuid2 (Some 2%positive) true Aliased.subscribed
          = (Ok tt, s2) ∧
    trace s2 = trace Aliased.subscribed ∧
    world s2 = world Aliased.subscribed ∧
    1%positive ∈ callbacks_at (dev s2) 32 ∧
    2%positive ∈ callbacks_at (dev s2) 32.
Proof.
  apply (subscribe_keyed_by_handle Aliased.cached Aliased.uuid1 Aliased.uuid2
           1%positive 2%positive true
           (mkCharacteristic Aliased.uuid1 32)
           (mkCharacteristic Aliased.uuid2 32)).
  - vm_compute; reflexivity.
  - vm_compute; reflexivity.
  - reflexivity.
  - vm_compute; reflexivity.
Defined.

(** X8 with the link down when subscribing. *)
Lemma failed_subscribe_callback_dispatched_witness :
  invocations 1%positive 16 [xaa; xbb]
    (since
       (trace (Scenario.run (subscribe Scenario.uuid (Some 1%positive) false)
                 (Scenario.start true)))
       (trace (Scenario.run (receive_notification 16 [xaa; xbb])
                 (Scenario.run (subscribe Scenario.uuid (Some 1%positive) false)
                    (Scenario.start true)))))
  = 1%nat.
Proof.
  assert (get_handle Scenario.uuid (Scenario.start true)
          = (Ok 16, Scenario.resolved_down)) as Hg
    by (vm_compute; reflexivity).
  assert (subscribe Scenario.uuid (Some 1%positive) false (Scenario.start true)
          = (Raise (OtherError "NotConnectedError" "write failed"),
             Scenario.run (subscribe Scenario.uuid (Some 1%positive) false)
               (Scenario.start true))) as Hs
    by (vm_compute; reflexivity).
  destruct (failed_subscribe_callback_dispatched _ _ _ _ _ _ _ _ Hg Hs)
    as [_ Hone].
  apply Hone. vm_compute; reflexivity.
Defined.

(** X10 with the two raising subscribers. *)
Lemma receive_notification_raise_witness :
  ∃ called k w,
    since (trace Scenario.two_raising)
      (trace (Scenario.run (receive_notification 16 [xaa; xbb])
                Scenario.two_raising))
    = ((λ k, EvCallback k 16 [xaa; xbb]) <$> called)
        ++ [EvCallback k 16 [xaa; xbb]] ∧
    k ∈ callbacks_at (dev Scenario.two_raising) 16 ∧ (k ∉ called) ∧
    (∀ k', k' ∈ called → k' ∈ callbacks_at (dev Scenario.two_raising) 16) ∧
    call_callback k 16 [xaa; xbb] w
      = (Raise (OtherError "ValueError" "bad payload"),
         world (Scenario.run (receive_notification 16 [xaa; xbb])
                  Scenario.two_raising)).
Proof.
  apply (receive_notification_raise Scenario.two_raising 16 [xaa; xbb]).
  vm_compute; reflexivity.
Defined.

(** X14 after a [subscribe] on a new device. *)
Lemma configs_written_reachable_witness :
  (17, [x01; x00], false)
  ∈ writes (trace (perform_all
                     [call_subscribe Scenario.uuid (Some 1%positive) false]
                     (new_device "01:23:45:67:89:ab"
                        (Scenario.mkWorld Scenario.the_table false 0)))).
Proof.
  apply (configs_written_reachable "01:23:45:67:89:ab"
           (Scenario.mkWorld Scenario.the_table false 0)
           [call_subscribe Scenario.uuid (Some 1%positive) false] 16
           [x01; x00]).
  vm_compute; reflexivity.
Defined.

Section BaseClassRuns.
#[local] Existing Instance BaseClass.base_backend.
#[local] Existing Instance BaseClass.base_subscribers.

(** X16 for the class with nothing overridden. *)
Lemma no_config_recorded_when_writes_raise_witness :
  _subscribed_handlers
    (dev (perform_all
            [call_subscribe Scenario.uuid (Some 1%positive) false;
             call_char_write Scenario.uuid [x01; x00] true;
             call_subscribe Scenario.uuid None true]
            BaseClass.cached))
  = ∅.
Proof.
  apply (no_config_recorded_when_writes_raise
           [call_subscribe Scenario.uuid (Some 1%positive) false;
            call_char_write Scenario.uuid [x01; x00] true;
            call_subscribe Scenario.uuid None true]
           BaseClass.cached).
  intros h value wait_for_response w.
  exists (OtherError "NotImplementedError" ""), w. reflexivity.
Defined.

End BaseClassRuns.
